(** * Smart summary service: trend analysis and recommendation synthesis

    A shallow embedding of [backend/smart_summary_service.py] and the
    properties of its trend analyser, stagnation detector, insight
    generator, recommendation orchestrator and summary composer.

    Numbers.  A Python number is the rational it denotes ([Q]); every
    binary64 value is one.  Comparisons, [abs] and negation are exact on
    such values.  Each arithmetic result the code computes is rounded to
    binary64, to nearest with ties to even: [float] is that rounding,
    and [fsub], [fmul] and [fdiv] are the float operations.  Python's
    [statistics.mean] and [statistics.variance] compute over exact
    fractions and round the final quotient once.  An integer of the
    sizes in play is a binary64 value, so an integer result is its own
    rounding.  Overflow to infinity is not modelled: scores lie between
    0 and 100.

    Dictionaries.  A Python [dict] keeps insertion order and the code
    iterates over it, so a dictionary is an association list; [get] is the
    first binding of the key.

    Exceptions.  Code that can raise returns a [result]; [try]/[except
    Exception] is [catch].

    Inputs.  A feature score, a sleep or skin score and a routine figure
    is a number wherever it is present; the routine's two figures may be
    absent.  What the language-model service returns is unconstrained. *)

From Stdlib Require Import String Ascii.
From Stdlib Require Import QArith Qabs ZArith List Bool Lia Lqa.
From Stdlib Require Import Permutation Sorted.
Import ListNotations.

Local Open Scope Q_scope.

(** ** The Python fragment the service relies on *)

Module Py.

Inductive exn : Set :=
| StatisticsError
| TypeError
| AttributeError
| KeyError
| IndexError
| Exception.

Inductive result (A : Type) : Type :=
| Ok (a : A)
| Raise (e : exn).

Arguments Ok {A} a.
Arguments Raise {A} e.

Definition bind {A B : Type} (m : result A) (k : A -> result B) : result B :=
  match m with
  | Ok a => k a
  | Raise e => Raise e
  end.

(** [try: body except Exception: handler] *)
Definition catch {A : Type} (body : result A) (handler : exn -> A) : A :=
  match body with
  | Ok a => a
  | Raise e => handler e
  end.

Fixpoint mapM {A B : Type} (f : A -> result B) (l : list A) : result (list B) :=
  match l with
  | [] => Ok []
  | x :: xs =>
      bind (f x) (fun y => bind (mapM f xs) (fun ys => Ok (y :: ys)))
  end.

(** Comparisons on numbers, as booleans. *)
Definition Qltb (x y : Q) : bool := negb (Qle_bool y x).
Definition Qgeb (x y : Q) : bool := Qle_bool y x.

(** Insertion-ordered dictionaries with string keys. *)
Definition dict (V : Type) : Type := list (string * V).

Fixpoint get {V : Type} (d : dict V) (k : string) : option V :=
  match d with
  | [] => None
  | (k', v) :: d' => if String.eqb k' k then Some v else get d' k
  end.

(** [d.get(k, default)] *)
Definition get_default {V : Type} (d : dict V) (k : string) (default : V) : V :=
  match get d k with
  | Some v => v
  | None => default
  end.

Definition keys {V : Type} (d : dict V) : list string := map fst d.

(** The invariant every Python dictionary satisfies. *)
Definition well_formed {V : Type} (d : dict V) : Prop := NoDup (keys d).

(** Slices [l[start:stop]] with Python's treatment of negative and
    out-of-range bounds. *)
Definition clamp_index (len : nat) (i : Z) : nat :=
  if (i <? 0)%Z
  then Z.to_nat (Z.max 0 (i + Z.of_nat len))
  else Nat.min (Z.to_nat i) len.

Definition slice {A : Type} (l : list A) (start stop : option Z) : list A :=
  let len := length l in
  let lo := match start with None => 0%nat | Some i => clamp_index len i end in
  let hi := match stop with None => len | Some j => clamp_index len j end in
  firstn (hi - lo) (skipn lo l).

(** [l[-1]] and [l[0]] *)
Definition last_item (l : list Q) : result Q :=
  match rev l with
  | [] => Raise IndexError
  | x :: _ => Ok x
  end.

Definition first_item (l : list Q) : result Q :=
  match l with
  | [] => Raise IndexError
  | x :: _ => Ok x
  end.

(** Binary64.  [round_half_even n d] is the integer nearest to [n / d],
    the even one at a tie; [binade n d] is the exponent of the power of
    two at or below [n / d]; a significand has 53 bits and the least
    exponent is -1074. *)
Definition round_half_even (n d : Z) : Z :=
  let q := (n / d)%Z in
  match (2 * (n mod d) ?= d)%Z with
  | Lt => q
  | Gt => (q + 1)%Z
  | Eq => if Z.even q then q else (q + 1)%Z
  end.

Definition binade (n d : Z) : Z :=
  let k := (Z.log2 n - Z.log2 d)%Z in
  if (0 <=? k)%Z
  then (if (d * 2 ^ k <=? n)%Z then k else k - 1)%Z
  else (if (d <=? n * 2 ^ (- k))%Z then k else k - 1)%Z.

Definition round_positive (n d : Z) : Q :=
  let e := Z.max (binade n d - 52) (-1074) in
  let m := if (0 <=? e)%Z
           then round_half_even n (d * 2 ^ e)
           else round_half_even (n * 2 ^ (- e)) d in
  inject_Z m * Qpower 2 e.

(** The binary64 value nearest to a rational. *)
Definition float (q : Q) : Q :=
  match Qnum q with
  | Z0 => 0
  | Zpos n => round_positive (Zpos n) (Zpos (Qden q))
  | Zneg n => - round_positive (Zpos n) (Zpos (Qden q))
  end.

(** [x - y], [x * y] and [x / y] on floats. *)
Definition fsub (x y : Q) : Q := float (x - y).

Definition fmul (x y : Q) : Q := float (x * y).

Definition fdiv (x y : Q) : Q := float (x / y).

(** The [statistics] module. *)
Definition Qsum (l : list Q) : Q := fold_right Qplus 0 l.

Definition Qlen {A : Type} (l : list A) : Q := inject_Z (Z.of_nat (length l)).

Definition mean (data : list Q) : result Q :=
  match data with
  | [] => Raise StatisticsError
  | _ => Ok (float (Qsum data / Qlen data))
  end.

(** Sample variance: the exact sum of squared deviations from the exact
    mean over [n - 1], rounded once. *)
Definition variance (data : list Q) : result Q :=
  match data with
  | [] | [_] => Raise StatisticsError
  | _ =>
      let c := Qsum data / Qlen data in
      Ok (float (Qsum (map (fun x => (x - c) * (x - c)) data)
                 / (Qlen data - 1)))
  end.

(** [int(x)]: truncation towards zero. *)
Definition int (x : Q) : Z := Z.quot (Qnum x) (Zpos (Qden x)).

(** [sorted(items, key=lambda x: x[1])]: a stable sort on the value. *)
Fixpoint insert_by_value {K : Type} (x : K * Q) (l : list (K * Q)) : list (K * Q) :=
  match l with
  | [] => [x]
  | y :: l' =>
      if Qltb (snd y) (snd x) then y :: insert_by_value x l' else x :: y :: l'
  end.

Definition sorted_by_value {K : Type} (l : list (K * Q)) : list (K * Q) :=
  fold_right insert_by_value [] l.

End Py.

Import Py.

Notation "x <- m ;; k" := (Py.bind m (fun x => k))
  (at level 61, m at next level, right associativity).

(** ** Data model *)

Inductive Trend : Set := improving | declining | stable | stagnant.

Inductive Significance : Set := significant | moderate | minor | none.

Record FeatureTrend := mkFeatureTrend {
  feature_name : string;
  current_value : Q;
  previous_value : Q;
  change : Q;
  change_percentage : Q;
  trend : Trend;
  duration_days : nat;
  significance : Significance
}.

(** One analysis entry: today's result or one element of the history.
    [features] is the ['features'] dictionary (empty when absent);
    the scores default to 0 when absent. *)
Record analysis := mkAnalysis {
  features : dict Q;
  sleep_score : Q;
  skin_health_score : Q
}.

(** The routine dictionary: both figures may be absent. *)
Record routine_data := mkRoutine {
  sleep_hours : option Q;
  water_intake : option Q
}.

(** [routine.get(field, default)] *)
Definition or_default (field : option Q) (default : Q) : Q :=
  match field with
  | Some v => v
  | None => default
  end.

(** ** Configuration of [SmartSummaryService.__init__] *)

Definition IMPROVEMENT_THRESHOLD : Q := 2.0.
Definition DECLINE_THRESHOLD : Q := -2.0.
Definition STAGNATION_THRESHOLD : Q := 0.5.
Definition STAGNATION_DURATION : nat := 14.
Definition TREND_CONFIRMATION_PERIOD : nat := 7.

Local Open Scope string_scope.
Local Open Scope list_scope.

Definition FEATURE_RANGES : dict (dict Q) :=
  [ ("dark_circles", [("excellent", 75%Q); ("good", 60%Q); ("fair", 45%Q); ("poor", 30%Q)]);
    ("puffiness",    [("excellent", 70%Q); ("good", 55%Q); ("fair", 40%Q); ("poor", 25%Q)]);
    ("brightness",   [("excellent", 80%Q); ("good", 65%Q); ("fair", 50%Q); ("poor", 35%Q)]);
    ("wrinkles",     [("excellent", 75%Q); ("good", 60%Q); ("fair", 45%Q); ("poor", 30%Q)]);
    ("texture",      [("excellent", 75%Q); ("good", 60%Q); ("fair", 45%Q); ("poor", 30%Q)]);
    ("pore_size",    [("excellent", 70%Q); ("good", 55%Q); ("fair", 40%Q); ("poor", 25%Q)]) ].

Definition FEATURE_NAMES : dict string :=
  [ ("dark_circles", "Dark Circles");
    ("puffiness", "Eye Puffiness");
    ("brightness", "Skin Brightness");
    ("wrinkles", "Fine Lines");
    ("texture", "Skin Texture");
    ("pore_size", "Pore Size") ].

(** [self.FEATURE_NAMES.get(key, key)] *)
Definition display_name (feature_key : string) : string :=
  get_default FEATURE_NAMES feature_key feature_key.

(** [self.FEATURE_RANGES.get(key, {}).get(band, default)] *)
Definition range_bound (feature_key band : string) (default : Q) : Q :=
  get_default (get_default FEATURE_RANGES feature_key []) band default.

(** ** TrendAnalyzer: [_analyze_feature_trends] *)

(** [entry.get('features', {}).get(feature_key, 0)] *)
Definition feature_value (feature_key : string) (entry : analysis) : Q :=
  get_default (features entry) feature_key 0%Q.

Definition recent_period (historical_data : list analysis) : list analysis :=
  if (7 <=? length historical_data)%nat
  then slice historical_data (Some (-7)%Z) None
  else historical_data.

Definition comparison_period (historical_data : list analysis) : list analysis :=
  if (7 <=? length historical_data)%nat
  then
    if (14 <=? length historical_data)%nat
    then slice historical_data (Some (-14)%Z) (Some (-7)%Z)
    else slice historical_data None (Some 7%Z)
  else
    if (1 <? length historical_data)%nat
    then slice historical_data None (Some (Z.of_nat (length historical_data / 2)))
    else slice historical_data None (Some 1%Z).

(** The ladder of lines 249-260. *)
Definition classify_change (change : Q) : Trend * Significance :=
  if Qgeb change IMPROVEMENT_THRESHOLD then
    (improving, if Qgeb (Qabs change) 5 then significant else moderate)
  else if Qle_bool change DECLINE_THRESHOLD then
    (declining, if Qgeb (Qabs change) 5 then significant else moderate)
  else if Qle_bool (Qabs change) STAGNATION_THRESHOLD then
    (stagnant, none)
  else
    (stable, minor).

(** The body of the loop over [current_features.items()]. *)
Definition feature_trend (recent comparison : list analysis)
    (item : string * Q) : result FeatureTrend :=
  let '(feature_key, current_value) := item in
  recent_avg <- mean (map (feature_value feature_key) recent) ;;
  previous_avg <-
    match comparison with
    | [] => Ok current_value
    | _ => mean (map (feature_value feature_key) comparison)
    end ;;
  let change := fsub recent_avg previous_avg in
  let change_percentage :=
    if negb (Qeq_bool previous_avg 0)
    then fmul (fdiv change (Qabs previous_avg)) 100
    else 0%Q in
  let '(trend, significance) := classify_change change in
  Ok (mkFeatureTrend feature_key current_value previous_avg change
        change_percentage trend (length recent) significance).

Definition _analyze_feature_trends (current_analysis : analysis)
    (historical_data : list analysis) : result (list FeatureTrend) :=
  mapM (feature_trend (recent_period historical_data)
                      (comparison_period historical_data))
       (features current_analysis).

(** [_detect_significant_changes] *)
Definition is_significant_change (t : FeatureTrend) : bool :=
  match significance t with
  | significant | moderate => true
  | _ => false
  end.

Definition _detect_significant_changes (feature_trends : list FeatureTrend)
    : list FeatureTrend :=
  filter is_significant_change feature_trends.

(** ** StagnationDetector: [_detect_stagnation] *)

(** One iteration of the loop over the current feature keys: does the
    key get appended to [stagnant_features]?  [current] is
    [current_features[feature_key]]. *)
Definition stagnation_check (recent : list analysis)
    (feature_key : string) (current : Q) : result bool :=
  let values := map (feature_value feature_key) recent in
  match values with
  | [] => Ok false
  | _ =>
      variance <- (if (1 <? length values)%nat then variance values else Ok 0%Q) ;;
      last <- last_item values ;;
      first <- first_item values ;;
      let total_change := Qabs (fsub last first) in
      if Qltb variance 2.0 && Qltb total_change 2.0 then
        Ok (Qltb current (range_bound feature_key "good" 60))
      else Ok false
  end.

Fixpoint stagnation_loop (recent : list analysis) (current_features : dict Q)
    : result (list string) :=
  match current_features with
  | [] => Ok []
  | (feature_key, current) :: rest =>
      flagged <- stagnation_check recent feature_key current ;;
      others <- stagnation_loop recent rest ;;
      Ok (if flagged then feature_key :: others else others)
  end.

Definition stagnation_window (historical_data : list analysis) : list analysis :=
  slice historical_data (Some (- Z.of_nat STAGNATION_DURATION)%Z) None.

Definition _detect_stagnation (historical_data : list analysis)
    (current_analysis : analysis) : result (list string) :=
  if (length historical_data <? STAGNATION_DURATION)%nat then Ok []
  else stagnation_loop (stagnation_window historical_data)
                       (features current_analysis).

(** ** SummaryComposer: [_generate_daily_summary] *)

Definition Trend_eqb (a b : Trend) : bool :=
  match a, b with
  | improving, improving | declining, declining
  | stable, stable | stagnant, stagnant => true
  | _, _ => false
  end.

(** [t.trend == name] *)
Definition has_trend (name : Trend) (t : FeatureTrend) : bool :=
  Trend_eqb (trend t) name.

(** The message templates; each carries the values its f-string embeds. *)
Inductive summary_message : Type :=
| MultipleImproving (sleep skin : Q)
| PositiveChanges (sleep skin : Q) (improving_count : nat)
| Plateaued (sleep skin : Q)
| FeaturesDeclining (sleep skin : Q) (declining_count : nat)
| MaintainingStability (sleep skin : Q)
| WelcomeBaseline (sleep skin : Q).

(** [status + message], kept as its two parts. *)
Record daily_summary_text := mkDaily {
  status : string;
  message : summary_message
}.

Definition _generate_daily_summary (current_analysis : analysis)
    (feature_trends significant_changes : list FeatureTrend)
    (stagnant_features : list string) (routine : routine_data)
    : daily_summary_text :=
  let sleep_score := sleep_score current_analysis in
  let skin_score := skin_health_score current_analysis in
  let improving := length (filter (has_trend improving) feature_trends) in
  let declining := length (filter (has_trend declining) feature_trends) in
  if (3 <=? improving)%nat && (declining =? 0)%nat then
    mkDaily "Excellent progress! " (MultipleImproving sleep_score skin_score)
  else if (2 <=? improving)%nat && (declining <=? 1)%nat then
    mkDaily "Good progress! " (PositiveChanges sleep_score skin_score improving)
  else if (3 <=? length stagnant_features)%nat then
    mkDaily "Time for changes. " (Plateaued sleep_score skin_score)
  else if (2 <=? declining)%nat then
    mkDaily "Needs attention. " (FeaturesDeclining sleep_score skin_score declining)
  else
    mkDaily "Steady progress. " (MaintainingStability sleep_score skin_score).

(** ** InsightGenerator: [_generate_key_insights] *)

Inductive insight : Type :=
| Improved (name : string) (points percentage : Q)
| Declined (name : string) (points : Q)
| NotImproved (name : string)
| IsExcellent (name : string) (value : Q)
| CanImprove (name : string) (value : Q).

(** One iteration of the "excellent features" loop. *)
Definition add_excellent (insights : list insight) (t : FeatureTrend)
    : list insight :=
  if Qgeb (current_value t) (range_bound (feature_name t) "excellent" 75) then
    if (length insights <? 5)%nat
    then insights ++ [IsExcellent (display_name (feature_name t)) (current_value t)]
    else insights
  else insights.

Definition _generate_key_insights
    (feature_trends significant_changes : list FeatureTrend)
    (stagnant_features : list string) : list insight :=
  let improvements :=
    map (fun t => Improved (display_name (feature_name t))
                           (Qabs (change t)) (Qabs (change_percentage t)))
        (filter (has_trend improving) significant_changes) in
  let declines :=
    map (fun t => Declined (display_name (feature_name t)) (Qabs (change t)))
        (filter (has_trend declining) significant_changes) in
  let stagnation :=
    map (fun k => NotImproved (display_name k)) stagnant_features in
  let insights :=
    fold_left add_excellent feature_trends
              (improvements ++ declines ++ stagnation) in
  slice insights None (Some 6%Z).

(** ** RecommendationOrchestrator *)

(** The deterministic texts. *)
Inductive rule_text : Type :=
| FeatureRemedy (feature_key feature_name : string) (for_decline : bool)
| IncreaseSleep (currently : option Q)
| DrinkWater (currently : option Q)
| PrioritizeSleep
| AdditionalHour
| GreatSleepRoutine (hours : Z)
| IncreaseWaterIntake
| KeepUpHabits
| TakeDailySelfies.

(** [_get_lifestyle_recommendation] *)
Definition _get_lifestyle_recommendation (routine : routine_data) : rule_text :=
  let sleep_hours := or_default (sleep_hours routine) 0 in
  let water_intake := or_default (water_intake routine) 0 in
  if Qltb sleep_hours 6 then PrioritizeSleep
  else if Qltb sleep_hours 7 then AdditionalHour
  else if Qgeb sleep_hours 7 && Qle_bool sleep_hours 9 then
    GreatSleepRoutine (int sleep_hours)
  else if Qltb water_intake 6 then IncreaseWaterIntake
  else KeepUpHabits.

Definition known_features : list string :=
  ["dark_circles"; "puffiness"; "brightness"; "wrinkles"; "texture"; "pore_size"].

(** [_get_feature_recommendations]: one text for each of the six known
    keys, chosen by [status == 'declining'], and nothing otherwise. *)
Definition _get_feature_recommendations (feature_key status : string)
    (current_value : Q) (routine : routine_data) : list rule_text :=
  let feature_name := display_name feature_key in
  if existsb (String.eqb feature_key) known_features
  then [FeatureRemedy feature_key feature_name (String.eqb status "declining")]
  else [].

(** *** Values returned by the generative collaborator

    The language-model service is outside this file; what it hands back
    is an arbitrary JSON-like Python value, or an exception.  A string
    value is the list of its code points, which is what [len] counts and
    a slice cuts. *)

(** The code points of a text written in ASCII. *)
Definition code_points (s : string) : list N :=
  map N_of_ascii (list_ascii_of_string s).

#[local] Set Warnings "-register-all".

Inductive pyval : Type :=
| PNone
| PBool (b : bool)
| PNum (q : Q)
| PStr (s : list N)
| PList (items : list pyval)
| PDict (entries : list (string * pyval)).

(** Truth value of an object in a condition. *)
Definition truthy (v : pyval) : bool :=
  match v with
  | PNone => false
  | PBool b => b
  | PNum q => negb (Qeq_bool q 0)
  | PStr s => negb (Nat.eqb (length s) 0)
  | PList items => negb (Nat.eqb (length items) 0)
  | PDict entries => negb (Nat.eqb (length entries) 0)
  end.

(** [len(v)] *)
Definition py_len (v : pyval) : result nat :=
  match v with
  | PStr s => Ok (length s)
  | PList items => Ok (length items)
  | PDict entries => Ok (length entries)
  | PNone | PBool _ | PNum _ => Raise TypeError
  end.

(** [v[:n]]: defined on sequences, an error on everything else (the
    exception class raised for a dictionary varies with the interpreter;
    the handler catches every class alike). *)
Definition py_prefix (n : nat) (v : pyval) : result pyval :=
  match v with
  | PStr s => Ok (PStr (slice s None (Some (Z.of_nat n))))
  | PList items => Ok (PList (slice items None (Some (Z.of_nat n))))
  | PNone | PBool _ | PNum _ | PDict _ => Raise TypeError
  end.

(** A recommendation with its origin. *)
Inductive recommendation : Type :=
| generative (text : pyval)
| deterministic (text : rule_text).

Definition is_deterministic (r : recommendation) : bool :=
  match r with
  | deterministic _ => true
  | generative _ => false
  end.

(** [combined.append(tip)]: only a list has [append]. *)
Definition py_append (combined : pyval) (tip : rule_text)
    : result (list recommendation) :=
  match combined with
  | PList items => Ok (map generative items ++ [deterministic tip])
  | _ => Raise AttributeError
  end.

(** The outcome of [random.choice] over the four openings of the prompt. *)
Inductive variation : Set :=
| innovative_skincare
| dermatologist_approved
| evidence_based
| holistic_wellness.

Record prompt := mkPrompt {
  variation_seed : variation;
  area1 : string;
  value1 : Q;
  area2 : string;
  value2 : Q
}.

(** Arguments of [llm_service.generate_smart_summary]. *)
Record llm_request := mkRequest {
  analysis_data : analysis;
  request_routine : routine_data;
  request_prompt : prompt
}.

Definition llm_service : Type := llm_request -> result pyval.

(** What [_generate_ai_recommendations] returns: the dictionary of the
    generative path or the plain list of the rule engine. *)
Inductive rec_result : Type :=
| RecDict (recommendations : list recommendation)
          (natural_remedies product_recommendations : pyval)
          (lifestyle_tip : rule_text)
| RecList (recommendations : list recommendation).

(** [sorted(features.items(), key=lambda x: x[1])[:2]] *)
Definition worst_two (features : dict Q) : list (string * Q) :=
  slice (sorted_by_value features) None (Some 2%Z).

Definition build_prompt (seed : variation) (current_analysis : analysis) : prompt :=
  let worst := worst_two (features current_analysis) in
  let area1_key := match nth_error worst 0 with Some kv => fst kv | None => "skin_health" end in
  let area2_key := match nth_error worst 1 with Some kv => fst kv | None => "texture" end in
  let value1 := match nth_error worst 0 with Some kv => snd kv | None => 0%Q end in
  let value2 := match nth_error worst 1 with Some kv => snd kv | None => 0%Q end in
  mkPrompt seed (display_name area1_key) value1 (display_name area2_key) value2.

(** The [try] block (lines 456-539).  Every tip of
    [_get_lifestyle_recommendation] is a non-empty string, so the two
    [if lifestyle_rec:] tests always succeed. *)
Definition generative_path (llm : llm_service) (seed : variation)
    (current_analysis : analysis) (routine : routine_data) : result rec_result :=
  ai_response <- llm (mkRequest current_analysis routine
                                (build_prompt seed current_analysis)) ;;
  match ai_response with
  | PDict entries =>
      if truthy ai_response then
        let ai_recs := get_default entries "recommendations" (PList []) in
        n <- py_len ai_recs ;;
        if truthy ai_recs && (1 <=? n)%nat then
          _shown <- py_prefix 4 ai_recs ;;
          let lifestyle_rec := _get_lifestyle_recommendation routine in
          let natural_rems := get_default entries "natural_remedies" (PList []) in
          let product_recs := get_default entries "product_recommendations" (PList []) in
          combined <- py_prefix 4 ai_recs ;;
          combined <- py_append combined lifestyle_rec ;;
          natural <- py_prefix 2 natural_rems ;;
          products <- py_prefix 2 product_recs ;;
          Ok (RecDict combined natural products lifestyle_rec)
        else Raise Exception
      else Raise Exception
  | _ => Raise Exception
  end.

(** The [except] block (lines 541-577): the rule engine. *)
Definition rule_engine (current_analysis : analysis) (routine : routine_data)
    (feature_trends : list FeatureTrend) (stagnant_features : list string)
    : list recommendation :=
  let declining := filter (has_trend declining) feature_trends in
  let for_declining :=
    flat_map (fun t => _get_feature_recommendations
                         (feature_name t) "declining" (current_value t) routine)
             (slice declining None (Some 2%Z)) in
  let for_stagnant :=
    flat_map (fun k => _get_feature_recommendations
                         k "stagnant"
                         (get_default (features current_analysis) k 0%Q) routine)
             (slice stagnant_features None (Some 2%Z)) in
  let sleep :=
    if Qltb (or_default (sleep_hours routine) 8) 7
    then [IncreaseSleep (sleep_hours routine)] else [] in
  let water :=
    if Qltb (or_default (water_intake routine) 8) 6
    then [DrinkWater (water_intake routine)] else [] in
  slice (map deterministic (for_declining ++ for_stagnant ++ sleep ++ water))
        None (Some 8%Z).

Definition _generate_ai_recommendations (llm : llm_service) (seed : variation)
    (current_analysis : analysis) (routine : routine_data)
    (feature_trends : list FeatureTrend) (stagnant_features : list string)
    (significant_changes : list FeatureTrend) : rec_result :=
  catch (generative_path llm seed current_analysis routine)
        (fun _ => RecList (rule_engine current_analysis routine
                                       feature_trends stagnant_features)).

(** ** SummaryComposer: [generate_smart_summary] *)

Record trend_buckets := mkBuckets {
  improving_features : list string;
  declining_features : list string;
  stagnant_features : list string;
  stable_features : list string
}.

Record summary := mkSummary {
  daily_summary : daily_summary_text;
  key_insights : list insight;
  recommendations : list recommendation;
  natural_remedies : pyval;
  product_recommendations : pyval;
  lifestyle_tip : option rule_text;
  trend_analysis : trend_buckets;
  model : string;
  provider : string;
  data_points_analyzed : nat
}.

(** "Handle both dict and list formats" (lines 128-137 and 183-192). *)
Definition unpack (rec_result : rec_result)
    : list recommendation * pyval * pyval * option rule_text :=
  match rec_result with
  | RecDict recommendations natural_remedies product_recs lifestyle_tip =>
      (recommendations, natural_remedies, product_recs, Some lifestyle_tip)
  | RecList recommendations =>
      (recommendations, PList [], PList [], None)
  end.

(** The branch taken when [len(historical_data) < 2] (lines 103-156). *)
Definition baseline_summary (llm : llm_service) (seed : variation)
    (current_analysis : analysis) (routine : routine_data)
    (historical_data : list analysis) : summary :=
  let features := features current_analysis in
  let sorted_features := slice (sorted_by_value features) None (Some 2%Z) in
  let insights :=
    map (fun kv => CanImprove (display_name (fst kv)) (snd kv)) sorted_features in
  let '(recommendations, natural_remedies, product_recs, lifestyle_tip) :=
    catch (Ok (unpack (_generate_ai_recommendations
                         llm seed current_analysis routine [] [] [])))
          (fun _ => ([deterministic TakeDailySelfies], PList [], PList [], None)) in
  mkSummary
    (mkDaily "" (WelcomeBaseline (sleep_score current_analysis)
                                 (skin_health_score current_analysis)))
    (slice insights None (Some 5%Z))
    (slice recommendations None (Some 6%Z))
    natural_remedies product_recs lifestyle_tip
    (mkBuckets [] [] [] (keys features))
    "Hybrid (Local + AI) - TESTING MODE" "internal + LLM"
    (length historical_data).

Definition names_with_trend (name : Trend) (feature_trends : list FeatureTrend)
    : list string :=
  map feature_name (filter (has_trend name) feature_trends).

Definition generate_smart_summary (llm : llm_service) (seed : variation)
    (current_analysis : analysis) (routine : routine_data)
    (historical_data : list analysis) : result summary :=
  if (length historical_data <? 2)%nat then
    Ok (baseline_summary llm seed current_analysis routine historical_data)
  else
    feature_trends <- _analyze_feature_trends current_analysis historical_data ;;
    let significant_changes := _detect_significant_changes feature_trends in
    stagnant_features <- _detect_stagnation historical_data current_analysis ;;
    let daily_summary :=
      _generate_daily_summary current_analysis feature_trends
                              significant_changes stagnant_features routine in
    let key_insights :=
      _generate_key_insights feature_trends significant_changes stagnant_features in
    let '(recommendations, natural_remedies, product_recs, lifestyle_tip) :=
      unpack (_generate_ai_recommendations
                llm seed current_analysis routine
                feature_trends stagnant_features significant_changes) in
    Ok (mkSummary daily_summary key_insights recommendations
                  natural_remedies product_recs lifestyle_tip
                  (mkBuckets (names_with_trend improving feature_trends)
                             (names_with_trend declining feature_trends)
                             stagnant_features
                             (names_with_trend stable feature_trends))
                  "Hybrid (Local + AI)" "internal + LLM"
                  (length historical_data)).

(** ** Vocabulary of the statements and sample inputs *)

(** The last [n] elements of a list (all of it when it is shorter). *)
Definition lastn {A : Type} (n : nat) (l : list A) : list A :=
  skipn (length l - n) l.

(** The ladder as the analyser's contract words it: the first matching
    rung decides the trend, and the significance follows the trend. *)
Definition ladder (c : Q) (t : Trend) (s : Significance) : Prop :=
  (2.0 <= c -> t = improving) /\
  (c < 2.0 -> c <= -2.0 -> t = declining) /\
  (c < 2.0 -> -2.0 < c -> Qabs c <= 0.5 -> t = stagnant) /\
  (c < 2.0 -> -2.0 < c -> 0.5 < Qabs c -> t = stable) /\
  (t = improving \/ t = declining ->
     (5 <= Qabs c -> s = significant) /\ (Qabs c < 5 -> s = moderate)) /\
  (t = stagnant -> s = none) /\
  (t = stable -> s = minor).

(** The trend record the loop body builds for one feature when both
    windows hold data. *)
Definition trend_record (recent comparison : list analysis)
    (item : string * Q) : FeatureTrend :=
  let recent_avg :=
    float (Qsum (map (feature_value (fst item)) recent) / Qlen recent) in
  let previous_avg :=
    float (Qsum (map (feature_value (fst item)) comparison) / Qlen comparison) in
  let change := fsub recent_avg previous_avg in
  mkFeatureTrend (fst item) (snd item) previous_avg change
    (if negb (Qeq_bool previous_avg 0)
     then fmul (fdiv change (Qabs previous_avg)) 100 else 0)
    (fst (classify_change change)) (length recent)
    (snd (classify_change change)).

(** An analysis entry with a single feature. *)
Definition single_feature (feature_key : string) (score : Q) : analysis :=
  mkAnalysis [(feature_key, score)] 0 0.

(** A history in which one feature takes the given scores, oldest first. *)
Definition history_of (feature_key : string) (scores : list Z) : list analysis :=
  map (fun z => single_feature feature_key (inject_Z z)) scores.

(** Dark circles rising from 40 to 53 over fourteen samples. *)
Definition rising_history : list analysis :=
  history_of "dark_circles" [40; 41; 42; 43; 44; 45; 46; 47; 48; 49; 50; 51; 52; 53]%Z.

(** The comparison window as the contract words it: the seven samples
    before the recent window when fourteen exist, the first half of the
    series otherwise. *)
Definition comparison_period_as_specified (hist : list analysis) : list analysis :=
  if (14 <=? length hist)%nat then firstn 7 (skipn (length hist - 14) hist)
  else firstn (length hist / 2) hist.

(** Eight samples: four at 0, then four at 7. *)
Definition step_history : list analysis :=
  history_of "dark_circles" [0; 0; 0; 0; 7; 7; 7; 7]%Z.

(** Fourteen samples whose two window means are 3/7 and 17/7. *)
Definition sevenths_history : list analysis :=
  history_of "wrinkles" [0; 0; 0; 0; 1; 1; 1; 2; 2; 2; 2; 3; 3; 3]%Z.

(** The binary64 values of 0.4, twelve times 1.4, and 2.4. *)
Definition drifting_history : list analysis :=
  map (fun q => single_feature "wrinkles" (float q))
      ([4 # 10] ++ repeat (14 # 10) 12 ++ [24 # 10]).

(** Fine lines constant at 35 for fourteen samples. *)
Definition flat_history : list analysis :=
  history_of "wrinkles" (repeat 35%Z 14).

(** Three improving trends and no other. *)
Definition three_improving : list FeatureTrend :=
  map (fun k => mkFeatureTrend k 50 40 10 25 improving 7 significant)
      ["dark_circles"; "puffiness"; "brightness"].

(** The parts the rule engine concatenates. *)
Definition remedies_for_declining (routine : routine_data)
    (feature_trends : list FeatureTrend) : list rule_text :=
  flat_map (fun t => _get_feature_recommendations
                       (feature_name t) "declining" (current_value t) routine)
           (firstn 2 (filter (has_trend declining) feature_trends)).

Definition remedies_for_stagnant (cur : analysis) (routine : routine_data)
    (flags : list string) : list rule_text :=
  flat_map (fun k => _get_feature_recommendations
                       k "stagnant" (get_default (features cur) k 0) routine)
           (firstn 2 flags).

Definition sleep_advice (routine : routine_data) : list rule_text :=
  match sleep_hours routine with
  | Some h => if Qltb h 7 then [IncreaseSleep (Some h)] else []
  | None => []
  end.

Definition water_advice (routine : routine_data) : list rule_text :=
  match water_intake routine with
  | Some w => if Qltb w 6 then [DrinkWater (Some w)] else []
  | None => []
  end.

(** A failure of the collaborator: it raises, or what it returns is not
    a dictionary, or the dictionary's recommendations field is absent or
    empty (falsy). *)
Definition generative_failure (outcome : result pyval) : Prop :=
  match outcome with
  | Raise _ => True
  | Ok (PDict entries) =>
      match get entries "recommendations" with
      | None => True
      | Some recs => truthy recs = false
      end
  | Ok _ => True
  end.

(** Ascending order on the score of a (key, score) pair. *)
Definition le_value {K : Type} (a b : K * Q) : Prop := snd a <= snd b.

(** The dictionary returned by the normal branch, from its parts. *)
Definition summary_of_parts (cur : analysis) (routine : routine_data)
    (hist : list analysis) (trends : list FeatureTrend) (flags : list string)
    (rec : rec_result) : summary :=
  let changes := _detect_significant_changes trends in
  mkSummary (_generate_daily_summary cur trends changes flags routine)
            (_generate_key_insights trends changes flags)
            (fst (fst (fst (unpack rec)))) (snd (fst (fst (unpack rec))))
            (snd (fst (unpack rec))) (snd (unpack rec))
            (mkBuckets (names_with_trend improving trends)
                       (names_with_trend declining trends)
                       flags
                       (names_with_trend stable trends))
            "Hybrid (Local + AI)" "internal + LLM" (length hist).

(** The trend list of the normal branch. *)
Definition trends_of (cur : analysis) (hist : list analysis) : list FeatureTrend :=
  map (trend_record (recent_period hist) (comparison_period hist)) (features cur).

(** A collaborator that always raises. *)
Definition failing_llm : llm_service := fun _ => Raise Exception.

(** A collaborator that returns six recommendations and three of each
    category. *)
Definition generous_llm : llm_service :=
  fun _ =>
    Ok (PDict
          [("recommendations",
            PList (map (fun s => PStr (code_points s))
                       ["r1"; "r2"; "r3"; "r4"; "r5"; "r6"]));
           ("natural_remedies",
            PList (map (fun s => PStr (code_points s)) ["n1"; "n2"; "n3"]));
           ("product_recommendations",
            PList (map (fun s => PStr (code_points s)) ["p1"; "p2"; "p3"]))]).

(** The three-feature sample of the baseline scenario. *)
Definition three_features : dict Q :=
  [("brightness", 80); ("texture", 20); ("dark_circles", 55)].

(** Two samples of fine lines, both at 35. *)
Definition short_history : list analysis := history_of "wrinkles" [35; 35]%Z.

(** ** Further functions of the service *)

(** The labels of [_get_severity_level]: "Excellent", "Good", "Fair",
    "Poor" and "Needs Attention". *)
Inductive severity : Set :=
| Excellent
| Good
| Fair
| Poor
| NeedsAttention.

(** [_get_severity_level] *)
Definition _get_severity_level (feature_key : string) (value : Q) : severity :=
  if Qgeb value (range_bound feature_key "excellent" 75) then Excellent
  else if Qgeb value (range_bound feature_key "good" 60) then Good
  else if Qgeb value (range_bound feature_key "fair" 45) then Fair
  else if Qgeb value (range_bound feature_key "poor" 30) then Poor
  else NeedsAttention.

(** The texts of [_generate_recommendations]: a feature remedy, the two
    routine texts (each embeds the figure it tested) and the "continue
    your current routine" text, which embeds
    [FEATURE_NAMES.get(feature_name)] -- [None] for an unknown key. *)
Inductive plain_recommendation : Type :=
| Remedy (text : rule_text)
| AimForSleep (currently : Q)
| IncreaseWaterTo (currently : Q)
| ContinueRoutine (feature_name : option string).

(** [max(items, key=lambda t: abs(t.change))] on a non-empty list: the
    running maximum is replaced only by a strictly larger key. *)
Fixpoint max_by_abs_change (best : FeatureTrend) (rest : list FeatureTrend)
    : FeatureTrend :=
  match rest with
  | [] => best
  | t :: rest' =>
      max_by_abs_change
        (if Qltb (Qabs (change best)) (Qabs (change t)) then t else best) rest'
  end.

(** [_generate_recommendations] (lines 402-442). *)
Definition _generate_recommendations (current_analysis : analysis)
    (feature_trends : list FeatureTrend) (stagnant_features : list string)
    (routine : routine_data) : list plain_recommendation :=
  let current_features := features current_analysis in
  let declining := filter (has_trend declining) feature_trends in
  let for_declining :=
    flat_map (fun t => _get_feature_recommendations
                         (feature_name t) "declining"
                         (get_default current_features (feature_name t) 0%Q)
                         routine)
             (slice declining None (Some 2%Z)) in
  let for_stagnant :=
    flat_map (fun k => _get_feature_recommendations
                         k "stagnant" (get_default current_features k 0%Q) routine)
             (slice stagnant_features None (Some 2%Z)) in
  let sleep_hours := or_default (sleep_hours routine) 0 in
  let water_intake := or_default (water_intake routine) 0 in
  let sleep := if Qltb sleep_hours 7 then [AimForSleep sleep_hours] else [] in
  let water := if Qltb water_intake 6 then [IncreaseWaterTo water_intake] else [] in
  let improving := filter (has_trend improving) feature_trends in
  let continue :=
    match improving with
    | [] => []
    | first :: others =>
        let best_feature := max_by_abs_change first others in
        [ContinueRoutine (get FEATURE_NAMES (feature_name best_feature))]
    end in
  slice (map Remedy (for_declining ++ for_stagnant) ++ sleep ++ water ++ continue)
        None (Some 8%Z).

(** The insights of [_generate_first_time_summary]. *)
Inductive first_time_insight : Type :=
| FirstAnalysisComplete
| BaselineScores (sleep skin : Q)
| NeedsAttentionArea (name : string) (value : Q)
| RoomForImprovement (name : string) (value : Q).

(** Its recommendations: entries the orchestrator returned, or the
    texts of its own handler. *)
Inductive first_time_recommendation : Type :=
| FromOrchestrator (r : recommendation)
| TrackDailySelfies
| AimForQualitySleep
| StayHydrated
| WeakAreaRemedy (text : rule_text).

(** The value bound to [recommendations] after the [try]: what the
    orchestrator returned, or the handler's list. *)
Inductive first_time_outcome : Type :=
| Orchestrated (r : rec_result)
| HandlerList (l : list first_time_recommendation).

Record first_time_summary := mkFirstTime {
  ft_daily_summary : daily_summary_text;
  ft_key_insights : list first_time_insight;
  ft_recommendations : list first_time_recommendation;
  ft_trend_analysis : trend_buckets;
  ft_model : string;
  ft_provider : string;
  ft_data_points_analyzed : nat
}.

(** The insight added for one weak area: nothing at or above the "fair"
    bound. *)
Definition weak_area_insight (item : string * Q) : list first_time_insight :=
  let '(feature_key, value) := item in
  let feature_name := display_name feature_key in
  if Qltb value (range_bound feature_key "poor" 30) then
    [NeedsAttentionArea feature_name value]
  else if Qltb value (range_bound feature_key "fair" 45) then
    [RoomForImprovement feature_name value]
  else [].

(** [recommendations[:6]]: a slice of a list, an error on the
    orchestrator's dictionary. *)
Definition first_six (recommendations : first_time_outcome)
    : result (list first_time_recommendation) :=
  match recommendations with
  | Orchestrated (RecList l) => Ok (map FromOrchestrator (slice l None (Some 6%Z)))
  | Orchestrated (RecDict _ _ _ _) => Raise TypeError
  | HandlerList l => Ok (slice l None (Some 6%Z))
  end.

(** [_generate_first_time_summary] (lines 712-773).  The [try] wraps the
    orchestrator call alone; the slice in the returned dictionary is
    outside it. *)
Definition _generate_first_time_summary (llm : llm_service) (seed : variation)
    (current_analysis : analysis) (routine : routine_data)
    : result first_time_summary :=
  let sleep_score := sleep_score current_analysis in
  let skin_score := skin_health_score current_analysis in
  let features := features current_analysis in
  let sorted_features := sorted_by_value features in
  let weakest_features := slice sorted_features None (Some 2%Z) in
  let insights :=
    [FirstAnalysisComplete; BaselineScores sleep_score skin_score]
    ++ flat_map weak_area_insight weakest_features in
  let recommendations :=
    catch (Ok (Orchestrated (_generate_ai_recommendations
                               llm seed current_analysis routine [] [] [])))
          (fun _ =>
             HandlerList
               ([TrackDailySelfies; AimForQualitySleep; StayHydrated]
                ++ flat_map
                     (fun kv =>
                        map WeakAreaRemedy
                            (slice (_get_feature_recommendations
                                      (fst kv) "declining" (snd kv) routine)
                                   None (Some 1%Z)))
                     weakest_features)) in
  recommendations <- first_six recommendations ;;
  Ok (mkFirstTime
        (mkDaily "" (WelcomeBaseline sleep_score skin_score))
        (slice insights None (Some 5%Z))
        recommendations
        (mkBuckets [] [] [] (keys features))
        "Hybrid (Local + AI)" "internal + LLM" 1).

(** ** The summary endpoint of [main.py]: [get_daily_summary] *)

(** One stored analysis: its date (when recorded), the analysis fields
    and the routine logged with it (both figures absent when the entry
    has no routine). *)
Record stored_entry := mkEntry {
  entry_date : option string;
  entry_analysis : analysis;
  entry_routine : routine_data
}.

(** The mock analysis used when no stored analysis exists. *)
Definition mock_entry (date : string) : stored_entry :=
  mkEntry (Some date)
          (mkAnalysis [("dark_circles", -25); ("puffiness", -15);
                       ("brightness", 20); ("wrinkles", -10); ("texture", 15)]
                      65 70)
          (mkRoutine (Some 7.5) (Some 6)).

(** [entry.get('date') == date] *)
Definition has_date (date : string) (entry : stored_entry) : bool :=
  match entry_date entry with
  | Some d => String.eqb d date
  | None => false
  end.

(** [l[-1]] on a list known to be non-empty. *)
Definition last_of {A : Type} (l : list A) : option A :=
  match rev l with
  | [] => None
  | x :: _ => Some x
  end.

(** The choice of [today_analysis] (lines 509-545). *)
Definition select_today_analysis (historical_data : list stored_entry)
    (date : string) : stored_entry :=
  let today_analysis :=
    match historical_data with
    | [] => None
    | _ => last_of (filter (has_date date) historical_data)
    end in
  let today_analysis :=
    match today_analysis, historical_data with
    | None, _ :: _ => last_of historical_data
    | _, _ => today_analysis
    end in
  match today_analysis with
  | None => mock_entry date
  | Some entry => entry
  end.

(** What the endpoint returns: the composed summary, or the basic
    summary of its handler. *)
Inductive endpoint_summary : Type :=
| Composed (s : summary)
| BasicSummary (date : string).

(** [get_daily_summary]; [now] is today's date as the clock gives it and
    [get_user_history] the history service. *)
Definition get_daily_summary
    (get_user_history : string -> result (list stored_entry))
    (llm : llm_service) (seed : variation) (now : string)
    (user_id : string) (date : option string) : endpoint_summary :=
  let date :=
    match date with
    | Some d => if String.eqb d "" then now else d
    | None => now
    end in
  catch
    (historical_data <-
       (if negb (String.eqb user_id "guest")
        then get_user_history user_id else Ok []) ;;
     let today_analysis := select_today_analysis historical_data date in
     summary <- generate_smart_summary llm seed
                  (entry_analysis today_analysis) (entry_routine today_analysis)
                  (map entry_analysis historical_data) ;;
     Ok (Composed summary))
    (fun _ => BasicSummary date).

(** ** Vocabulary of the further statements *)

(** The two trends that carry a significance of significant or moderate. *)
Definition is_moving (t : FeatureTrend) : bool :=
  has_trend improving t || has_trend declining t.

(** Better labels rank higher. *)
Definition severity_rank (s : severity) : nat :=
  match s with
  | Excellent => 4
  | Good => 3
  | Fair => 2
  | Poor => 1
  | NeedsAttention => 0
  end.

(** Does one loop iteration of the stagnation detector flag the item? *)
Definition flagged_in (window : list analysis) (item : string * Q) : bool :=
  match stagnation_check window (fst item) (snd item) with
  | Ok flagged => flagged
  | Raise _ => false
  end.

(** The test of the "excellent features" loop of [_generate_key_insights]. *)
Definition is_excellent (t : FeatureTrend) : bool :=
  Qgeb (current_value t) (range_bound (feature_name t) "excellent" 75).

(** The insights of the first three priorities, in the order built. *)
Definition priority_insights (significant_changes : list FeatureTrend)
    (stagnant_features : list string) : list insight :=
  map (fun t => Improved (display_name (feature_name t))
                         (Qabs (change t)) (Qabs (change_percentage t)))
      (filter (has_trend improving) significant_changes)
  ++ map (fun t => Declined (display_name (feature_name t)) (Qabs (change t)))
         (filter (has_trend declining) significant_changes)
  ++ map (fun k => NotImproved (display_name k)) stagnant_features.

(** One "excellent" insight per trend record at or above its bound. *)
Definition excellent_insights (feature_trends : list FeatureTrend) : list insight :=
  map (fun t => IsExcellent (display_name (feature_name t)) (current_value t))
      (filter is_excellent feature_trends).

(** A collaborator whose recommendations are valid and whose natural
    remedies field is a number. *)
Definition malformed_llm : llm_service :=
  fun _ =>
    Ok (PDict [("recommendations",
                PList [PStr (code_points "r1"); PStr (code_points "r2")]);
               ("natural_remedies", PNum 3)]).

(** The items holding a given score. *)
Definition has_score (q : Q) (item : string * Q) : bool := Qeq_bool (snd item) q.

(** * Properties *)

(** ** Reflection of the numeric tests *)

Lemma Qltb_lt (x y : Q) : Qltb x y = true <-> x < y.
Proof.
  unfold Qltb. rewrite negb_true_iff. split.
  - intros H. apply Qnot_le_lt. intros Hle.
    apply Qle_bool_iff in Hle. congruence.
  - intros H. destruct (Qle_bool y x) eqn:E; [|reflexivity].
    apply Qle_bool_iff in E. exfalso. exact (Qlt_not_le _ _ H E).
Qed.

Lemma Qltb_ge (x y : Q) : Qltb x y = false <-> y <= x.
Proof.
  unfold Qltb. rewrite negb_false_iff. apply Qle_bool_iff.
Qed.

Lemma Qgeb_ge (x y : Q) : Qgeb x y = true <-> y <= x.
Proof. apply Qle_bool_iff. Qed.

Lemma Qgeb_lt (x y : Q) : Qgeb x y = false <-> x < y.
Proof.
  unfold Qgeb. split.
  - intros H. apply Qnot_le_lt. intros Hle.
    apply Qle_bool_iff in Hle. congruence.
  - intros H. destruct (Qle_bool y x) eqn:E; [|reflexivity].
    apply Qle_bool_iff in E. exfalso. exact (Qlt_not_le _ _ H E).
Qed.

Lemma Qle_bool_gt (x y : Q) : Qle_bool x y = false <-> y < x.
Proof. apply (Qgeb_lt y x). Qed.

(** ** Slices *)

Lemma slice_prefix {A : Type} (l : list A) (n : nat) :
  slice l None (Some (Z.of_nat n)) = firstn n l.
Proof.
  unfold slice, clamp_index.
  destruct (Z.ltb_spec (Z.of_nat n) 0) as [Hneg|_]; [lia|].
  rewrite Nat2Z.id, Nat.sub_0_r. simpl skipn.
  destruct (Nat.le_ge_cases n (length l)) as [Hle|Hge].
  - now rewrite Nat.min_l.
  - rewrite Nat.min_r by assumption.
    now rewrite !firstn_all2 by lia.
Qed.

Lemma slice_suffix {A : Type} (l : list A) (n : nat) :
  (0 < n)%nat -> slice l (Some (- Z.of_nat n)%Z) None = lastn n l.
Proof.
  intros Hn. unfold slice, clamp_index, lastn.
  destruct (Z.ltb_spec (- Z.of_nat n) 0) as [_|Hpos]; [|lia].
  replace (Z.to_nat (Z.max 0 (- Z.of_nat n + Z.of_nat (length l))))
    with (length l - n)%nat by lia.
  apply firstn_all2. rewrite length_skipn. lia.
Qed.

Lemma slice_between {A : Type} (l : list A) (a b : nat) :
  (0 < b <= a)%nat -> (a <= length l)%nat ->
  slice l (Some (- Z.of_nat a)%Z) (Some (- Z.of_nat b)%Z)
  = firstn (a - b) (skipn (length l - a) l).
Proof.
  intros Hab Hlen. unfold slice, clamp_index.
  destruct (Z.ltb_spec (- Z.of_nat a) 0) as [_|Hpos]; [|lia].
  destruct (Z.ltb_spec (- Z.of_nat b) 0) as [_|Hpos]; [|lia].
  replace (Z.to_nat (Z.max 0 (- Z.of_nat a + Z.of_nat (length l))))
    with (length l - a)%nat by lia.
  replace (Z.to_nat (Z.max 0 (- Z.of_nat b + Z.of_nat (length l))))
    with (length l - b)%nat by lia.
  f_equal. lia.
Qed.

Lemma length_prefix_le {A : Type} (l : list A) (n : nat) :
  (length (slice l None (Some (Z.of_nat n))) <= n)%nat.
Proof. rewrite slice_prefix, length_firstn. lia. Qed.

Lemma lastn_length {A : Type} (n : nat) (l : list A) :
  length (lastn n l) = Nat.min n (length l).
Proof. unfold lastn. rewrite length_skipn. lia. Qed.

Lemma lastn_all {A : Type} (n : nat) (l : list A) :
  (length l <= n)%nat -> lastn n l = l.
Proof.
  intros H. unfold lastn. now replace (length l - n)%nat with 0%nat by lia.
Qed.

(** ** The windows of the trend analyser *)

Lemma recent_period_lastn (hist : list analysis) :
  recent_period hist = lastn (Nat.min 7 (length hist)) hist.
Proof.
  unfold recent_period.
  destruct (Nat.leb_spec 7 (length hist)) as [H|H].
  - change (-7)%Z with (- Z.of_nat 7)%Z. rewrite slice_suffix by lia.
    now rewrite Nat.min_l.
  - rewrite Nat.min_r by lia. symmetry. apply lastn_all. lia.
Qed.

Lemma comparison_period_cases (hist : list analysis) :
  comparison_period hist =
  if (14 <=? length hist)%nat then firstn 7 (skipn (length hist - 14) hist)
  else if (7 <=? length hist)%nat then firstn 7 hist
  else if (1 <? length hist)%nat then firstn (length hist / 2) hist
  else firstn 1 hist.
Proof.
  unfold comparison_period.
  destruct (Nat.leb_spec 7 (length hist)) as [H7|H7];
    destruct (Nat.leb_spec 14 (length hist)) as [H14|H14]; try lia.
  - change (-14)%Z with (- Z.of_nat 14)%Z.
    change (-7)%Z with (- Z.of_nat 7)%Z.
    now rewrite slice_between by lia.
  - change 7%Z with (Z.of_nat 7). apply slice_prefix.
  - destruct (Nat.ltb_spec 1 (length hist)).
    + apply slice_prefix.
    + change 1%Z with (Z.of_nat 1). apply slice_prefix.
Qed.

Lemma recent_period_nonempty (hist : list analysis) :
  hist <> [] -> recent_period hist <> [].
Proof.
  intros Hne Hnil. apply (f_equal (@length _)) in Hnil.
  rewrite recent_period_lastn, lastn_length in Hnil.
  destruct hist; [congruence|]. simpl in Hnil. lia.
Qed.

Lemma comparison_period_nonempty (hist : list analysis) :
  hist <> [] -> comparison_period hist <> [].
Proof.
  intros Hne.
  assert (Hlen : (0 < length hist)%nat)
    by (destruct hist; [congruence | simpl; lia]).
  enough (Hpos : (0 < length (comparison_period hist))%nat)
    by (intros Hnil; rewrite Hnil in Hpos; inversion Hpos).
  rewrite comparison_period_cases.
  destruct (Nat.leb_spec 14 (length hist));
    [rewrite length_firstn, length_skipn; lia|].
  destruct (Nat.leb_spec 7 (length hist));
    [rewrite length_firstn; lia|].
  destruct (Nat.ltb_spec 1 (length hist)); rewrite length_firstn.
  - assert (1 <= length hist / 2)%nat
      by (apply (Nat.div_le_lower_bound (length hist) 2 1); lia).
    lia.
  - lia.
Qed.

(** ** Trend classification *)

Lemma classify_change_ladder (c : Q) :
  ladder c (fst (classify_change c)) (snd (classify_change c)).
Proof.
  unfold ladder, classify_change,
    IMPROVEMENT_THRESHOLD, DECLINE_THRESHOLD, STAGNATION_THRESHOLD.
  destruct (Qgeb c 2.0) eqn:E1;
    [apply Qgeb_ge in E1 | apply Qgeb_lt in E1].
  - destruct (Qgeb (Qabs c) 5) eqn:E5;
      [apply Qgeb_ge in E5 | apply Qgeb_lt in E5];
      simpl; repeat split; intros; try reflexivity; try discriminate; try lra.
  - destruct (Qle_bool c (-2.0)) eqn:E2;
      [apply Qle_bool_iff in E2 | apply Qle_bool_gt in E2].
    + destruct (Qgeb (Qabs c) 5) eqn:E5;
        [apply Qgeb_ge in E5 | apply Qgeb_lt in E5];
        simpl; repeat split; intros; try reflexivity; try discriminate; try lra.
    + destruct (Qle_bool (Qabs c) 0.5) eqn:E3;
        [apply Qle_bool_iff in E3 | apply Qle_bool_gt in E3];
        simpl; repeat split; intros; try reflexivity; try discriminate;
        try lra; try (destruct H as [H|H]; discriminate).
Qed.

Lemma mapM_ok {A B : Type} (f : A -> result B) (g : A -> B) (l : list A) :
  (forall x, In x l -> f x = Ok (g x)) -> mapM f l = Ok (map g l).
Proof.
  induction l as [|x l IH]; intros H; simpl.
  - reflexivity.
  - rewrite (H x (or_introl eq_refl)). simpl.
    rewrite IH by (intros y Hy; apply H; now right). reflexivity.
Qed.

Lemma mean_ok (data : list Q) :
  data <> [] -> mean data = Ok (float (Qsum data / Qlen data)).
Proof. destruct data; [congruence | reflexivity]. Qed.

Lemma Qlen_map {A B : Type} (f : A -> B) (l : list A) : Qlen (map f l) = Qlen l.
Proof. unfold Qlen. now rewrite length_map. Qed.

Lemma feature_trend_ok (recent comparison : list analysis) (item : string * Q) :
  recent <> [] -> comparison <> [] ->
  feature_trend recent comparison item = Ok (trend_record recent comparison item).
Proof.
  intros Hr Hc. destruct item as [k v]. unfold feature_trend, trend_record.
  rewrite mean_ok by (destruct recent; [congruence | discriminate]).
  cbn [bind].
  destruct comparison as [|c0 cs] eqn:Ec; [congruence|]. rewrite <- Ec.
  rewrite mean_ok by (rewrite Ec; discriminate).
  cbn [bind fst snd]. rewrite !Qlen_map.
  destruct (classify_change _) as [t s]. reflexivity.
Qed.

Lemma analyze_feature_trends_ok (cur : analysis) (hist : list analysis) :
  hist <> [] ->
  _analyze_feature_trends cur hist =
  Ok (map (trend_record (recent_period hist) (comparison_period hist))
          (features cur)).
Proof.
  intros Hne. unfold _analyze_feature_trends. apply mapM_ok.
  intros item _. apply feature_trend_ok.
  - now apply recent_period_nonempty.
  - now apply comparison_period_nonempty.
Qed.

(** C1.  Every feature of the current sample gets one trend record; its
    change is the recent-window mean minus the comparison-window mean,
    each mean and the difference being the binary64 values the code
    computes, and its trend and significance follow the ladder on that
    change, whose boundaries are inclusive: 2.0 is improving, -2.0 is
    declining, 0.5 is stagnant and 0.51 is stable. *)
Theorem trend_classification_ladder :
  (forall (cur : analysis) (hist : list analysis),
      hist <> [] ->
      exists trends,
        _analyze_feature_trends cur hist = Ok trends /\
        map feature_name trends = keys (features cur) /\
        Forall (fun t =>
          exists recent_avg previous_avg,
            mean (map (feature_value (feature_name t)) (recent_period hist))
              = Ok recent_avg /\
            mean (map (feature_value (feature_name t)) (comparison_period hist))
              = Ok previous_avg /\
            change t = fsub recent_avg previous_avg /\
            ladder (change t) (trend t) (significance t)) trends) /\
  classify_change 2.0 = (improving, moderate) /\
  classify_change (-2.0) = (declining, moderate) /\
  classify_change 0.5 = (stagnant, none) /\
  classify_change 0.51 = (stable, minor) /\
  classify_change 5 = (improving, significant) /\
  classify_change (-5) = (declining, significant).
Proof.
  split; [|repeat split; reflexivity].
  intros cur hist Hne. eexists. split; [now apply analyze_feature_trends_ok|].
  split.
  - rewrite map_map. reflexivity.
  - apply Forall_forall. intros t Ht. apply in_map_iff in Ht.
    destruct Ht as [item [<- _]]. cbn [trend_record feature_name change trend significance].
    do 2 eexists. split; [|split; [|split]].
    + apply mean_ok. pose proof (recent_period_nonempty hist Hne).
      destruct (recent_period hist); [congruence | discriminate].
    + apply mean_ok. pose proof (comparison_period_nonempty hist Hne).
      destruct (comparison_period hist); [congruence | discriminate].
    + rewrite !Qlen_map. reflexivity.
    + apply classify_change_ladder.
Qed.

Lemma trend_classification_ladder_witness :
  rising_history <> [] /\
  exists trends,
    _analyze_feature_trends (single_feature "dark_circles" 53) rising_history
      = Ok trends /\
    map feature_name trends = ["dark_circles"] /\
    Forall (fun t => ladder (change t) (trend t) (significance t)) trends.
Proof.
  split; [discriminate|].
  destruct (proj1 trend_classification_ladder
              (single_feature "dark_circles" 53) rising_history)
    as [trends [Hrun [Hnames Hall]]]; [discriminate|].
  exists trends. split; [exact Hrun|]. split; [exact Hnames|].
  eapply Forall_impl; [|exact Hall].
  intros t [r [p [_ [_ [_ Hl]]]]]. exact Hl.
Defined.

(** The change is the float difference: the window means 17/7 and 3/7
    differ by exactly 2, their binary64 values by less, and the trend is
    stable and not improving. *)
Lemma float_change_below_threshold :
  (17 # 7) - (3 # 7) == 2 /\
  exists t,
    _analyze_feature_trends (single_feature "wrinkles" 3) sevenths_history
      = Ok [t] /\
    previous_value t = float (3 # 7) /\
    change t = fsub (float (17 # 7)) (float (3 # 7)) /\
    change t < 2 /\
    trend t = stable /\ significance t = minor.
Proof.
  split; [reflexivity|]. eexists.
  split; [vm_compute; reflexivity|].
  split; [vm_compute; reflexivity|].
  split; [vm_compute; reflexivity|].
  split; [vm_compute; reflexivity|]. split; reflexivity.
Qed.

(** ** The windows *)

(** With eight samples the comparison window is the first seven samples,
    not the first four: the means are 4 and 3, the change is 1 and the
    trend is stable, where the first half would give a mean of 0, a
    change of 4 and an improving trend. *)
Lemma comparison_window_not_first_half :
  (2 <= length step_history)%nat /\
  comparison_period step_history <> comparison_period_as_specified step_history /\
  length (comparison_period step_history) = 7%nat /\
  length (comparison_period_as_specified step_history) = 4%nat /\
  exists t recent_avg first_half_avg,
    _analyze_feature_trends (single_feature "dark_circles" 7) step_history
      = Ok [t] /\
    change t == 1 /\
    trend t = stable /\
    mean (map (feature_value "dark_circles") (recent_period step_history))
      = Ok recent_avg /\
    mean (map (feature_value "dark_circles")
              (comparison_period_as_specified step_history))
      = Ok first_half_avg /\
    fsub recent_avg first_half_avg == 4 /\
    ~ change t == fsub recent_avg first_half_avg /\
    fst (classify_change (fsub recent_avg first_half_avg)) = improving.
Proof.
  split; [simpl; lia|].
  split; [intros H; apply (f_equal (@length _)) in H; vm_compute in H; discriminate|].
  split; [reflexivity|]. split; [reflexivity|].
  eexists. eexists. eexists.
  split; [vm_compute; reflexivity|].
  split; [vm_compute; reflexivity|].
  split; [reflexivity|].
  split; [vm_compute; reflexivity|].
  split; [vm_compute; reflexivity|].
  split; [vm_compute; reflexivity|].
  split; [|vm_compute; reflexivity].
  vm_compute. discriminate.
Qed.

Lemma older_comparison_recent {A : Type} (hist : list A) :
  (14 <= length hist)%nat ->
  hist = firstn (length hist - 14) hist
         ++ firstn 7 (skipn (length hist - 14) hist)
         ++ lastn 7 hist.
Proof.
  intros H. unfold lastn.
  replace (length hist - 7)%nat with (7 + (length hist - 14))%nat by lia.
  rewrite <- skipn_skipn.
  now rewrite !firstn_skipn.
Qed.

(** C3 (amended).  With at least two samples the recent window is the
    last min(7, N) samples.  The comparison window is the seven samples
    just before the recent window when N >= 14, the first seven samples
    of the series when 7 <= N < 14, and the first floor(N/2) samples when
    N < 7.  Each feature's change is the mean over the recent window minus
    the mean over the comparison window, the means being the exact
    arithmetic means rounded to binary64 and the difference their float
    difference. *)
Theorem trend_windows (cur : analysis) (hist : list analysis) :
  (2 <= length hist)%nat ->
  recent_period hist = lastn (Nat.min 7 (length hist)) hist /\
  ((14 <= length hist)%nat ->
     comparison_period hist = firstn 7 (skipn (length hist - 14) hist) /\
     exists older, hist = older ++ comparison_period hist ++ recent_period hist) /\
  ((7 <= length hist < 14)%nat -> comparison_period hist = firstn 7 hist) /\
  ((length hist < 7)%nat ->
     comparison_period hist = firstn (length hist / 2) hist) /\
  exists trends,
    _analyze_feature_trends cur hist = Ok trends /\
    map feature_name trends = keys (features cur) /\
    Forall (fun t =>
      exists recent_avg previous_avg,
        mean (map (feature_value (feature_name t)) (recent_period hist))
          = Ok recent_avg /\
        mean (map (feature_value (feature_name t)) (comparison_period hist))
          = Ok previous_avg /\
        recent_avg
          = float (Qsum (map (feature_value (feature_name t)) (recent_period hist))
                   / Qlen (recent_period hist)) /\
        previous_avg
          = float (Qsum (map (feature_value (feature_name t)) (comparison_period hist))
                   / Qlen (comparison_period hist)) /\
        previous_value t = previous_avg /\
        change t = fsub recent_avg previous_avg) trends.
Proof.
  intros HN.
  assert (Hne : hist <> []) by (destruct hist; [simpl in HN; lia | discriminate]).
  split; [apply recent_period_lastn|].
  split.
  { intros H14. rewrite recent_period_lastn, comparison_period_cases.
    destruct (Nat.leb_spec 14 (length hist)); [|lia].
    split; [reflexivity|].
    exists (firstn (length hist - 14) hist).
    rewrite Nat.min_l by lia. now apply older_comparison_recent. }
  split.
  { intros H7. rewrite comparison_period_cases.
    destruct (Nat.leb_spec 14 (length hist)); [lia|].
    destruct (Nat.leb_spec 7 (length hist)); [reflexivity|lia]. }
  split.
  { intros H7. rewrite comparison_period_cases.
    destruct (Nat.leb_spec 14 (length hist)); [lia|].
    destruct (Nat.leb_spec 7 (length hist)); [lia|].
    destruct (Nat.ltb_spec 1 (length hist)); [reflexivity|lia]. }
  eexists. split; [now apply analyze_feature_trends_ok|].
  split; [rewrite map_map; reflexivity|].
  apply Forall_forall. intros t Ht. apply in_map_iff in Ht.
  destruct Ht as [item [<- _]].
  cbn [trend_record feature_name change previous_value].
  do 2 eexists. split; [|split].
  - apply mean_ok. pose proof (recent_period_nonempty hist Hne).
    destruct (recent_period hist); [congruence | discriminate].
  - apply mean_ok. pose proof (comparison_period_nonempty hist Hne).
    destruct (comparison_period hist); [congruence | discriminate].
  - rewrite !Qlen_map. repeat split; reflexivity.
Qed.

Lemma trend_windows_witness :
  (2 <= length step_history)%nat /\
  comparison_period step_history = firstn 7 step_history.
Proof.
  split; [simpl; lia|].
  apply (trend_windows (single_feature "dark_circles" 7) step_history);
    simpl; lia.
Defined.

(** ** Stagnation *)

Lemma stagnation_window_lastn (hist : list analysis) :
  stagnation_window hist = lastn 14 hist.
Proof.
  unfold stagnation_window, STAGNATION_DURATION. apply slice_suffix. lia.
Qed.

Lemma last_item_ok (l : list Q) : l <> [] -> exists x, last_item l = Ok x.
Proof.
  intros Hne. unfold last_item. destruct (rev l) as [|x r] eqn:E.
  - apply (f_equal (@rev _)) in E. rewrite rev_involutive in E.
    simpl in E. congruence.
  - now exists x.
Qed.

(** The three tests of one loop iteration, on a window of two or more
    samples. *)
Lemma stagnation_check_spec (window : list analysis) (k : string) (v : Q) :
  (2 <= length window)%nat ->
  exists var first last,
    variance (map (feature_value k) window) = Ok var /\
    first_item (map (feature_value k) window) = Ok first /\
    last_item (map (feature_value k) window) = Ok last /\
    stagnation_check window k v =
    Ok (Qltb var 2.0 && Qltb (Qabs (fsub last first)) 2.0
        && Qltb v (range_bound k "good" 60)).
Proof.
  intros Hlen. unfold stagnation_check. cbv zeta.
  assert (Hvals : (2 <= length (map (feature_value k) window))%nat)
    by now rewrite length_map.
  destruct (map (feature_value k) window) as [|a [|b vals]];
    [simpl in Hvals; lia | simpl in Hvals; lia |].
  destruct (last_item_ok (a :: b :: vals)) as [last Hlast]; [discriminate|].
  change (1 <? length (a :: b :: vals))%nat with true.
  destruct (variance (a :: b :: vals)) as [var|e] eqn:Hvar;
    [|discriminate Hvar].
  exists var, a, last.
  split; [reflexivity|]. split; [reflexivity|]. split; [exact Hlast|].
  rewrite Hlast. cbn [bind first_item].
  destruct (Qltb var 2.0 && Qltb (Qabs (fsub last a)) 2.0); reflexivity.
Qed.

Lemma stagnation_loop_spec (window : list analysis) (feats : dict Q) :
  (2 <= length window)%nat ->
  exists flags,
    stagnation_loop window feats = Ok flags /\
    forall k, In k flags <->
      exists v, In (k, v) feats /\ stagnation_check window k v = Ok true.
Proof.
  intros Hlen. induction feats as [|[k0 v0] feats [flags [Hrun Hspec]]].
  - exists []. split; [reflexivity|]. intros k. split; [intros []|].
    intros [v [[] _]].
  - destruct (stagnation_check_spec window k0 v0 Hlen)
      as [var [first [last [_ [_ [_ Hcheck]]]]]].
    destruct (stagnation_check window k0 v0) as [flagged|e] eqn:Ec;
      [clear Hcheck | rewrite Hcheck in Ec; discriminate].
    cbn [stagnation_loop]. rewrite Ec, Hrun. cbn [bind].
    eexists. split; [reflexivity|]. intros k.
    destruct flagged.
    + split.
      * intros [<-|Hin]; [exists v0; split; [now left | exact Ec]|].
        apply Hspec in Hin. destruct Hin as [v [Hin Hv]].
        exists v. split; [now right | exact Hv].
      * intros [v [[Heq|Hin] Hv]].
        -- left. congruence.
        -- right. apply Hspec. now exists v.
    + split.
      * intros Hin. apply Hspec in Hin. destruct Hin as [v [Hin Hv]].
        exists v. split; [now right | exact Hv].
      * intros [v [[Heq|Hin] Hv]].
        -- inversion Heq; subst. congruence.
        -- apply Hspec. now exists v.
Qed.

Lemma Ok_inj {A : Type} (x y : A) : Ok x = Ok y -> x = y.
Proof. now intros [=]. Qed.

(** C4.  Fewer than fourteen samples give no flags.  Otherwise only the
    last fourteen samples are examined, and a feature of the current
    sample is flagged exactly when the sample variance over that window
    is below 2.0, the absolute difference between the window's last and
    first value is below 2.0, and the current value is below the
    feature's "good" bound; a variance of 2.0 or more is never flagged.
    The variance and the difference are the binary64 values the code
    computes. *)
Theorem stagnation_detection (cur : analysis) (hist : list analysis) :
  ((length hist < 14)%nat -> _detect_stagnation hist cur = Ok []) /\
  ((14 <= length hist)%nat ->
     length (lastn 14 hist) = 14%nat /\
     exists flags,
       _detect_stagnation hist cur = Ok flags /\
       _detect_stagnation (lastn 14 hist) cur = Ok flags /\
       (forall k, In k flags <->
          exists v var first last,
            In (k, v) (features cur) /\
            variance (map (feature_value k) (lastn 14 hist)) = Ok var /\
            first_item (map (feature_value k) (lastn 14 hist)) = Ok first /\
            last_item (map (feature_value k) (lastn 14 hist)) = Ok last /\
            var < 2.0 /\
            Qabs (fsub last first) < 2.0 /\
            v < range_bound k "good" 60) /\
       (forall k var,
          variance (map (feature_value k) (lastn 14 hist)) = Ok var ->
          2.0 <= var -> ~ In k flags)).
Proof.
  split.
  - intros H. unfold _detect_stagnation, STAGNATION_DURATION.
    now apply Nat.ltb_lt in H as ->.
  - intros H.
    assert (Hlen : length (lastn 14 hist) = 14%nat)
      by (rewrite lastn_length; lia).
    split; [exact Hlen|].
    assert (Hwin : (2 <= length (lastn 14 hist))%nat) by lia.
    destruct (stagnation_loop_spec (lastn 14 hist) (features cur) Hwin)
      as [flags [Hrun Hspec]].
    assert (Hiff : forall k, In k flags <->
      exists v var first last,
        In (k, v) (features cur) /\
        variance (map (feature_value k) (lastn 14 hist)) = Ok var /\
        first_item (map (feature_value k) (lastn 14 hist)) = Ok first /\
        last_item (map (feature_value k) (lastn 14 hist)) = Ok last /\
        var < 2.0 /\ Qabs (fsub last first) < 2.0 /\
        v < range_bound k "good" 60).
    { intros k. rewrite Hspec. split.
      - intros [v [Hin Hv]].
        destruct (stagnation_check_spec (lastn 14 hist) k v Hwin)
          as [var [first [last [Hvar [Hfirst [Hlast Hcheck]]]]]].
        rewrite Hcheck in Hv. apply Ok_inj in Hv.
        apply andb_true_iff in Hv as [Hv H3].
        apply andb_true_iff in Hv as [H1 H2].
        exists v, var, first, last.
        rewrite <- !Qltb_lt. repeat split; assumption.
      - intros [v [var [first [last [Hin [Hvar [Hfirst [Hlast [H1 [H2 H3]]]]]]]]]].
        exists v. split; [exact Hin|].
        destruct (stagnation_check_spec (lastn 14 hist) k v Hwin)
          as [var' [first' [last' [Hvar' [Hfirst' [Hlast' Hcheck]]]]]].
        rewrite Hcheck. f_equal.
        assert (var' = var) by congruence.
        assert (first' = first) by congruence.
        assert (last' = last) by congruence. subst.
        apply Qltb_lt in H1, H2, H3. now rewrite H1, H2, H3. }
    exists flags.
    split; [|split; [|split]].
    + unfold _detect_stagnation, STAGNATION_DURATION.
      destruct (Nat.ltb_spec (length hist) 14); [lia|].
      now rewrite stagnation_window_lastn.
    + unfold _detect_stagnation, STAGNATION_DURATION.
      destruct (Nat.ltb_spec (length (lastn 14 hist)) 14); [lia|].
      rewrite stagnation_window_lastn, (lastn_all 14 (lastn 14 hist)) by lia.
      exact Hrun.
    + exact Hiff.
    + intros k var Hvar Hge Hin. apply Hiff in Hin.
      destruct Hin as [v [var' [first [last [_ [Hvar' [_ [_ [Hlt _]]]]]]]]].
      assert (var' = var) by congruence. subst.
      exact (Qlt_not_le _ _ Hlt Hge).
Qed.

Lemma stagnation_detection_witness :
  (14 <= length flat_history)%nat /\
  exists flags,
    _detect_stagnation flat_history (single_feature "wrinkles" 35) = Ok flags /\
    In "wrinkles" flags.
Proof.
  split; [simpl; lia|].
  destruct (proj2 (stagnation_detection (single_feature "wrinkles" 35) flat_history))
    as [_ [flags [Hrun [_ [Hiff _]]]]]; [simpl; lia|].
  exists flags. split; [exact Hrun|].
  apply Hiff. exists 35. do 3 eexists.
  split; [left; reflexivity|].
  split; [vm_compute; reflexivity|].
  split; [vm_compute; reflexivity|].
  split; [vm_compute; reflexivity|].
  split; [reflexivity|]. split; reflexivity.
Defined.

(** The total change is the float difference: the binary64 values of 2.4
    and 0.4 differ by less than 2, their float difference is 2, and the
    feature is not flagged although its variance is small and its value
    is below the bound. *)
Lemma float_total_change_reaches_two :
  float (24 # 10) - float (4 # 10) < 2 /\
  fsub (float (24 # 10)) (float (4 # 10)) == 2 /\
  (exists var,
     variance (map (feature_value "wrinkles") drifting_history) = Ok var /\
     var < 2) /\
  35 < range_bound "wrinkles" "good" 60 /\
  _detect_stagnation drifting_history (single_feature "wrinkles" 35) = Ok [].
Proof.
  split; [vm_compute; reflexivity|].
  split; [vm_compute; reflexivity|].
  split; [eexists; split; vm_compute; reflexivity|].
  split; [reflexivity|]. vm_compute. reflexivity.
Qed.

(** ** The lifestyle tip *)

(** C6.  The tip is chosen by the first matching rung over the routine's
    sleep hours and water intake (each 0 when absent): under 6 hours the
    "prioritize 7-9 hours" tip, from 6 to under 7 the "additional hour"
    tip, from 7 to 9 the "maintain" tip, and above 9 hours the water tip
    when the intake is under 6 and the encouragement otherwise.  Five
    hours of sleep with eight glasses selects the sleep tip. *)
Theorem lifestyle_tip_ladder :
  (forall routine : routine_data,
     let s := or_default (sleep_hours routine) 0 in
     let w := or_default (water_intake routine) 0 in
     let tip := _get_lifestyle_recommendation routine in
     (s < 6 -> tip = PrioritizeSleep) /\
     (6 <= s -> s < 7 -> tip = AdditionalHour) /\
     (7 <= s -> s <= 9 -> tip = GreatSleepRoutine (int s)) /\
     (9 < s -> w < 6 -> tip = IncreaseWaterIntake) /\
     (9 < s -> 6 <= w -> tip = KeepUpHabits)) /\
  _get_lifestyle_recommendation (mkRoutine (Some 5) (Some 8)) = PrioritizeSleep /\
  _get_lifestyle_recommendation (mkRoutine (Some 5) (Some 8)) <> IncreaseWaterIntake.
Proof.
  split; [|split; [reflexivity | discriminate]].
  intros routine s w tip. subst tip. unfold _get_lifestyle_recommendation.
  fold s. fold w.
  destruct (Qltb s 6) eqn:E6; [apply Qltb_lt in E6 | apply Qltb_ge in E6].
  { repeat split; intros; try reflexivity; lra. }
  destruct (Qltb s 7) eqn:E7; [apply Qltb_lt in E7 | apply Qltb_ge in E7].
  { repeat split; intros; try reflexivity; lra. }
  destruct (Qgeb s 7) eqn:E7'; [apply Qgeb_ge in E7' | apply Qgeb_lt in E7'; lra].
  destruct (Qle_bool s 9) eqn:E9;
    [apply Qle_bool_iff in E9 | apply Qle_bool_gt in E9]; cbn [andb].
  { repeat split; intros; try reflexivity; lra. }
  destruct (Qltb w 6) eqn:Ew; [apply Qltb_lt in Ew | apply Qltb_ge in Ew];
    repeat split; intros; try reflexivity; lra.
Qed.

Lemma lifestyle_tip_ladder_witness :
  _get_lifestyle_recommendation (mkRoutine (Some 10) (Some 3)) = IncreaseWaterIntake.
Proof.
  apply (proj1 lifestyle_tip_ladder (mkRoutine (Some 10) (Some 3)));
    reflexivity.
Defined.

(** ** The daily status *)

(** C8.  The status is the first matching rung over the number of
    improving trends, of declining trends and of stagnation flags. *)
Theorem daily_status_ladder (cur : analysis)
    (feature_trends significant_changes : list FeatureTrend)
    (flags : list string) (routine : routine_data) :
  let improving_count := length (filter (has_trend improving) feature_trends) in
  let declining_count := length (filter (has_trend declining) feature_trends) in
  let stagnant_count := length flags in
  let chosen :=
    status (_generate_daily_summary cur feature_trends significant_changes
                                    flags routine) in
  let excellent := (3 <= improving_count /\ declining_count = 0)%nat in
  let good := (2 <= improving_count /\ declining_count <= 1)%nat in
  let changes := (3 <= stagnant_count)%nat in
  let attention := (2 <= declining_count)%nat in
  (excellent -> chosen = "Excellent progress! ") /\
  (~ excellent -> good -> chosen = "Good progress! ") /\
  (~ excellent -> ~ good -> changes -> chosen = "Time for changes. ") /\
  (~ excellent -> ~ good -> ~ changes -> attention ->
     chosen = "Needs attention. ") /\
  (~ excellent -> ~ good -> ~ changes -> ~ attention ->
     chosen = "Steady progress. ").
Proof.
  cbv zeta. unfold _generate_daily_summary.
  set (i := length (filter (has_trend improving) feature_trends)).
  set (d := length (filter (has_trend declining) feature_trends)).
  destruct (Nat.leb_spec 3 i); destruct (Nat.eqb_spec d 0);
    destruct (Nat.leb_spec 2 i); destruct (Nat.leb_spec d 1);
    destruct (Nat.leb_spec 3 (length flags));
    destruct (Nat.leb_spec 2 d);
    cbn [andb status]; repeat split; intros; try reflexivity; exfalso; lia.
Qed.

Lemma daily_status_ladder_witness :
  status (_generate_daily_summary (single_feature "wrinkles" 35)
            three_improving three_improving [] (mkRoutine None None))
  = "Excellent progress! ".
Proof.
  apply (daily_status_ladder (single_feature "wrinkles" 35)
           three_improving three_improving [] (mkRoutine None None)).
  simpl. lia.
Defined.

(** ** The rule engine *)

Lemma feature_recommendations_length (k st : string) (v : Q) (r : routine_data) :
  (length (_get_feature_recommendations k st v r) <= 1)%nat.
Proof.
  unfold _get_feature_recommendations.
  destruct (existsb _ _); simpl; lia.
Qed.

Lemma flat_map_length_le {A B : Type} (f : A -> list B) (l : list A) :
  (forall x, (length (f x) <= 1)%nat) ->
  (length (flat_map f l) <= length l)%nat.
Proof.
  intros Hf. induction l as [|x l IH]; simpl; [lia|].
  rewrite length_app. specialize (Hf x). lia.
Qed.

Lemma firstn_two_length {A : Type} (l : list A) :
  (length (slice l None (Some 2%Z)) <= 2)%nat.
Proof. change 2%Z with (Z.of_nat 2). apply length_prefix_le. Qed.

Lemma rule_engine_parts (cur : analysis) (routine : routine_data)
    (trends : list FeatureTrend) (flags : list string) :
  rule_engine cur routine trends flags =
  map deterministic
      (remedies_for_declining routine trends
       ++ remedies_for_stagnant cur routine flags
       ++ sleep_advice routine ++ water_advice routine) /\
  (length (remedies_for_declining routine trends) <= 2)%nat /\
  (length (remedies_for_stagnant cur routine flags) <= 2)%nat /\
  (length (sleep_advice routine) <= 1)%nat /\
  (length (water_advice routine) <= 1)%nat.
Proof.
  assert (Hd : (length (remedies_for_declining routine trends) <= 2)%nat).
  { unfold remedies_for_declining.
    etransitivity;
      [apply flat_map_length_le; intros; apply feature_recommendations_length|].
    rewrite length_firstn. lia. }
  assert (Hs : (length (remedies_for_stagnant cur routine flags) <= 2)%nat).
  { unfold remedies_for_stagnant.
    etransitivity;
      [apply flat_map_length_le; intros; apply feature_recommendations_length|].
    rewrite length_firstn. lia. }
  assert (Hsl : (length (sleep_advice routine) <= 1)%nat).
  { unfold sleep_advice. destruct (sleep_hours routine); [|simpl; lia].
    destruct (Qltb _ _); simpl; lia. }
  assert (Hw : (length (water_advice routine) <= 1)%nat).
  { unfold water_advice. destruct (water_intake routine); [|simpl; lia].
    destruct (Qltb _ _); simpl; lia. }
  split; [|now repeat split].
  unfold rule_engine.
  change (Some 2%Z) with (Some (Z.of_nat 2)).
  change (Some 8%Z) with (Some (Z.of_nat 8)).
  rewrite !slice_prefix.
  fold (remedies_for_declining routine trends).
  fold (remedies_for_stagnant cur routine flags).
  replace (if Qltb (or_default (sleep_hours routine) 8) 7
           then [IncreaseSleep (sleep_hours routine)] else [])
    with (sleep_advice routine)
    by (unfold sleep_advice; destruct (sleep_hours routine); reflexivity).
  replace (if Qltb (or_default (water_intake routine) 8) 6
           then [DrinkWater (water_intake routine)] else [])
    with (water_advice routine)
    by (unfold water_advice; destruct (water_intake routine); reflexivity).
  apply firstn_all2. rewrite length_map, !length_app. lia.
Qed.

Lemma rule_engine_deterministic (cur : analysis) (routine : routine_data)
    (trends : list FeatureTrend) (flags : list string) :
  Forall (fun r => is_deterministic r = true) (rule_engine cur routine trends flags).
Proof.
  rewrite (proj1 (rule_engine_parts cur routine trends flags)).
  apply Forall_forall. intros r Hr. apply in_map_iff in Hr.
  now destruct Hr as [x [<- _]].
Qed.

Lemma rule_engine_length (cur : analysis) (routine : routine_data)
    (trends : list FeatureTrend) (flags : list string) :
  (length (rule_engine cur routine trends flags) <= 6)%nat.
Proof.
  destruct (rule_engine_parts cur routine trends flags) as [-> [? [? [? ?]]]].
  rewrite length_map, !length_app. lia.
Qed.

(** ** The generative path *)

Lemma generative_path_failure (llm : llm_service) (seed : variation)
    (cur : analysis) (routine : routine_data) :
  generative_failure (llm (mkRequest cur routine (build_prompt seed cur))) ->
  exists e, generative_path llm seed cur routine = Raise e.
Proof.
  unfold generative_failure, generative_path.
  destruct (llm _) as [response|e]; [|intros _; now exists e].
  cbn [bind].
  destruct response as [| | | | |entries]; try (intros _; now exists Exception).
  destruct (truthy (PDict entries)); [|intros _; now exists Exception].
  intros Hfield. cbv zeta.
  assert (Hfalsy : truthy (get_default entries "recommendations" (PList [])) = false).
  { unfold get_default.
    destruct (get entries "recommendations"); [exact Hfield | reflexivity]. }
  destruct (py_len _) as [n|e]; cbn [bind]; [|now exists e].
  rewrite Hfalsy. now exists Exception.
Qed.

Lemma py_prefix_len (n : nat) (v w : pyval) :
  py_prefix n v = Ok w -> exists m, py_len w = Ok m /\ (m <= n)%nat.
Proof.
  destruct v; simpl; try discriminate; intros [= <-]; simpl; eexists;
    (split; [reflexivity|]); apply length_prefix_le.
Qed.

(** What the generative path returns when it succeeds. *)
Lemma generative_path_success (llm : llm_service) (seed : variation)
    (cur : analysis) (routine : routine_data) (r : rec_result) :
  generative_path llm seed cur routine = Ok r ->
  exists items natural products,
    r = RecDict (map generative items
                   ++ [deterministic (_get_lifestyle_recommendation routine)])
                natural products (_get_lifestyle_recommendation routine) /\
    (1 <= length items <= 4)%nat /\
    (exists n, py_len natural = Ok n /\ (n <= 2)%nat) /\
    (exists n, py_len products = Ok n /\ (n <= 2)%nat).
Proof.
  unfold generative_path.
  destruct (llm _) as [response|e]; [|discriminate]. cbn [bind].
  destruct response as [| | | | |entries]; try discriminate.
  destruct (truthy (PDict entries)); [|discriminate].
  set (recs := get_default entries "recommendations" (PList [])).
  destruct (py_len recs) as [n|e] eqn:Hn; [|discriminate]. cbn [bind].
  destruct (truthy recs && (1 <=? n)%nat) eqn:Hnonempty; [|discriminate].
  apply andb_true_iff in Hnonempty as [_ Hn1]. apply Nat.leb_le in Hn1.
  destruct (py_prefix 4 recs) as [shown|e] eqn:Hshown; [|discriminate].
  cbn [bind].
  destruct recs as [| | |s|items|d]; try discriminate Hshown.
  { injection Hshown as <-. discriminate. }
  injection Hshown as <-. cbn [py_append bind].
  destruct (py_prefix 2 (get_default entries "natural_remedies" (PList [])))
    as [natural|e] eqn:Hnat; [|discriminate].
  destruct (py_prefix 2 (get_default entries "product_recommendations" (PList [])))
    as [products|e] eqn:Hprod; [|discriminate].
  cbn [bind]. intros [= <-].
  exists (slice items None (Some (Z.of_nat 4))), natural, products.
  split; [reflexivity|]. split.
  - rewrite slice_prefix, length_firstn. simpl in Hn. injection Hn as <-. lia.
  - split; eapply py_prefix_len; eassumption.
Qed.

Lemma detect_stagnation_ok (hist : list analysis) (cur : analysis) :
  exists flags, _detect_stagnation hist cur = Ok flags.
Proof.
  unfold _detect_stagnation, STAGNATION_DURATION.
  destruct (Nat.ltb_spec (length hist) 14) as [H|H]; [now exists []|].
  rewrite stagnation_window_lastn.
  destruct (stagnation_loop_spec (lastn 14 hist) (features cur))
    as [flags [Hrun _]]; [rewrite lastn_length; lia|].
  now exists flags.
Qed.

(** ** Sorting by score *)

Lemma insert_by_value_perm {K : Type} (x : K * Q) (l : list (K * Q)) :
  Permutation (insert_by_value x l) (x :: l).
Proof.
  induction l as [|y l IH]; simpl; [reflexivity|].
  destruct (Qltb (snd y) (snd x)); [|reflexivity].
  rewrite IH. apply perm_swap.
Qed.

Lemma sorted_by_value_perm {K : Type} (l : list (K * Q)) :
  Permutation (sorted_by_value l) l.
Proof.
  induction l as [|x l IH]; simpl; [reflexivity|].
  rewrite insert_by_value_perm. now constructor.
Qed.

Lemma insert_by_value_sorted {K : Type} (x : K * Q) (l : list (K * Q)) :
  StronglySorted le_value l -> StronglySorted le_value (insert_by_value x l).
Proof.
  induction 1 as [|y l Hsorted IH Hall]; simpl.
  - repeat constructor.
  - destruct (Qltb (snd y) (snd x)) eqn:E.
    + apply Qltb_lt in E. constructor; [exact IH|].
      apply (Permutation_Forall (Permutation_sym (insert_by_value_perm x l))).
      constructor; [now apply Qlt_le_weak | exact Hall].
    + apply Qltb_ge in E. constructor; [now constructor|].
      constructor; [exact E|].
      eapply Forall_impl; [|exact Hall].
      intros z Hz. unfold le_value in *. now apply Qle_trans with (snd y).
Qed.

Lemma sorted_by_value_sorted {K : Type} (l : list (K * Q)) :
  StronglySorted le_value (sorted_by_value l).
Proof.
  induction l as [|x l IH]; simpl; [constructor|].
  now apply insert_by_value_sorted.
Qed.

(** ** The composed summary *)

Lemma generate_smart_summary_normal (llm : llm_service) (seed : variation)
    (cur : analysis) (routine : routine_data) (hist : list analysis) :
  (2 <= length hist)%nat ->
  exists flags,
    _analyze_feature_trends cur hist = Ok (trends_of cur hist) /\
    _detect_stagnation hist cur = Ok flags /\
    generate_smart_summary llm seed cur routine hist =
    Ok (summary_of_parts cur routine hist (trends_of cur hist) flags
          (_generate_ai_recommendations llm seed cur routine
             (trends_of cur hist) flags
             (_detect_significant_changes (trends_of cur hist)))).
Proof.
  intros HN.
  assert (Hne : hist <> []) by (destruct hist; [simpl in HN; lia | discriminate]).
  destruct (detect_stagnation_ok hist cur) as [flags Hflags].
  exists flags. split; [now apply analyze_feature_trends_ok|].
  split; [exact Hflags|].
  unfold generate_smart_summary.
  destruct (Nat.ltb_spec (length hist) 2); [lia|].
  rewrite (analyze_feature_trends_ok cur hist Hne), Hflags. cbn [bind].
  fold (trends_of cur hist). unfold summary_of_parts.
  destruct (unpack _) as [[[recs natural] products] tip]. reflexivity.
Qed.

Lemma generate_smart_summary_low_data (llm : llm_service) (seed : variation)
    (cur : analysis) (routine : routine_data) (hist : list analysis) :
  (length hist < 2)%nat ->
  generate_smart_summary llm seed cur routine hist =
  Ok (baseline_summary llm seed cur routine hist).
Proof.
  intros HN. unfold generate_smart_summary.
  now destruct (Nat.ltb_spec (length hist) 2); [|lia].
Qed.

Lemma baseline_summary_fields (llm : llm_service) (seed : variation)
    (cur : analysis) (routine : routine_data) (hist : list analysis) :
  let rec := unpack (_generate_ai_recommendations llm seed cur routine [] [] []) in
  let s := baseline_summary llm seed cur routine hist in
  key_insights s =
    firstn 5 (map (fun kv => CanImprove (display_name (fst kv)) (snd kv))
                  (firstn 2 (sorted_by_value (features cur)))) /\
  recommendations s = firstn 6 (fst (fst (fst rec))) /\
  natural_remedies s = snd (fst (fst rec)) /\
  product_recommendations s = snd (fst rec) /\
  lifestyle_tip s = snd rec /\
  trend_analysis s = mkBuckets [] [] [] (keys (features cur)) /\
  daily_summary s =
    mkDaily "" (WelcomeBaseline (sleep_score cur) (skin_health_score cur)) /\
  data_points_analyzed s = length hist.
Proof.
  cbv zeta. unfold baseline_summary. cbn [catch].
  destruct (unpack _) as [[[recs natural] products] tip].
  cbn [key_insights recommendations natural_remedies product_recommendations
       lifestyle_tip trend_analysis daily_summary data_points_analyzed fst snd].
  change (Some 5%Z) with (Some (Z.of_nat 5)).
  change (Some 6%Z) with (Some (Z.of_nat 6)).
  change (Some 2%Z) with (Some (Z.of_nat 2)).
  rewrite !slice_prefix. repeat split; reflexivity.
Qed.


(** ** Total replacement on failure *)

(** C2.  When the collaborator raises, returns something that is not a
    dictionary, or returns a dictionary whose recommendations field is
    absent or empty, the orchestrator returns exactly the rule engine's
    list: up to two remedies for the first two declining trends, up to
    two for the first two stagnation flags, a sleep text when the sleep
    hours are under 7 and a water text when the intake is under 6, at
    most 8 entries, all of deterministic origin; and the summary then has
    empty natural-remedy and product lists and no lifestyle tip. *)
Theorem fallback_total_replacement (llm : llm_service) (seed : variation)
    (cur : analysis) (routine : routine_data) :
  generative_failure (llm (mkRequest cur routine (build_prompt seed cur))) ->
  (forall trends flags changes,
     _generate_ai_recommendations llm seed cur routine trends flags changes
       = RecList (rule_engine cur routine trends flags) /\
     rule_engine cur routine trends flags =
       map deterministic
           (remedies_for_declining routine trends
            ++ remedies_for_stagnant cur routine flags
            ++ sleep_advice routine ++ water_advice routine) /\
     (length (remedies_for_declining routine trends) <= 2)%nat /\
     (length (remedies_for_stagnant cur routine flags) <= 2)%nat /\
     (length (sleep_advice routine) <= 1)%nat /\
     (sleep_advice routine <> [] <->
        exists h, sleep_hours routine = Some h /\ h < 7) /\
     (length (water_advice routine) <= 1)%nat /\
     (water_advice routine <> [] <->
        exists w, water_intake routine = Some w /\ w < 6) /\
     (length (rule_engine cur routine trends flags) <= 8)%nat /\
     Forall (fun r => is_deterministic r = true)
            (rule_engine cur routine trends flags)) /\
  (forall hist,
     exists s trends flags,
       generate_smart_summary llm seed cur routine hist = Ok s /\
       recommendations s = rule_engine cur routine trends flags /\
       Forall (fun r => is_deterministic r = true) (recommendations s) /\
       (length (recommendations s) <= 8)%nat /\
       natural_remedies s = PList [] /\
       product_recommendations s = PList [] /\
       lifestyle_tip s = None).
Proof.
  intros Hfail.
  destruct (generative_path_failure llm seed cur routine Hfail) as [e He].
  assert (Hout : forall trends flags changes,
    _generate_ai_recommendations llm seed cur routine trends flags changes
    = RecList (rule_engine cur routine trends flags)).
  { intros. unfold _generate_ai_recommendations. now rewrite He. }
  split.
  - intros trends flags changes.
    destruct (rule_engine_parts cur routine trends flags)
      as [Hparts [Hd [Hs [Hsl Hw]]]].
    split; [apply Hout|]. split; [exact Hparts|].
    split; [exact Hd|]. split; [exact Hs|]. split; [exact Hsl|].
    split.
    { unfold sleep_advice. destruct (sleep_hours routine) as [h|].
      - destruct (Qltb h 7) eqn:E.
        + apply Qltb_lt in E. split; [intros _; now exists h | discriminate].
        + apply Qltb_ge in E. split; [congruence|].
          intros [h' [[= <-] Hlt]]. exfalso. exact (Qlt_not_le _ _ Hlt E).
      - split; [congruence | intros [h [[=] _]]]. }
    split; [exact Hw|].
    split.
    { unfold water_advice. destruct (water_intake routine) as [w|].
      - destruct (Qltb w 6) eqn:E.
        + apply Qltb_lt in E. split; [intros _; now exists w | discriminate].
        + apply Qltb_ge in E. split; [congruence|].
          intros [w' [[= <-] Hlt]]. exfalso. exact (Qlt_not_le _ _ Hlt E).
      - split; [congruence | intros [w [[=] _]]]. }
    split; [pose proof (rule_engine_length cur routine trends flags); lia|].
    apply rule_engine_deterministic.
  - intros hist.
    destruct (Nat.lt_ge_cases (length hist) 2) as [Hlow|Hnormal].
    + exists (baseline_summary llm seed cur routine hist), [], [].
      destruct (baseline_summary_fields llm seed cur routine hist)
        as [_ [Hrecs [Hnat [Hprod [Htip _]]]]].
      rewrite Hout in Hrecs, Hnat, Hprod, Htip. cbn [unpack fst snd] in *.
      rewrite firstn_all2 in Hrecs
        by (pose proof (rule_engine_length cur routine [] []); lia).
      split; [now apply generate_smart_summary_low_data|].
      split; [exact Hrecs|]. rewrite Hrecs.
      split; [apply rule_engine_deterministic|].
      split; [pose proof (rule_engine_length cur routine [] []); lia|].
      now repeat split.
    + destruct (generate_smart_summary_normal llm seed cur routine hist Hnormal)
        as [flags [_ [_ Hrun]]].
      rewrite Hout in Hrun.
      eexists. exists (trends_of cur hist), flags.
      split; [exact Hrun|]. cbn [summary_of_parts recommendations unpack fst snd
        natural_remedies product_recommendations lifestyle_tip].
      split; [reflexivity|].
      split; [apply rule_engine_deterministic|].
      split;
        [pose proof (rule_engine_length cur routine (trends_of cur hist) flags); lia|].
      now repeat split.
Qed.

Lemma fallback_total_replacement_witness :
  exists s,
    generate_smart_summary failing_llm holistic_wellness
      (single_feature "wrinkles" 35) (mkRoutine (Some 5) (Some 8)) flat_history
      = Ok s /\
    natural_remedies s = PList [] /\ lifestyle_tip s = None.
Proof.
  destruct (proj2 (fallback_total_replacement failing_llm holistic_wellness
                     (single_feature "wrinkles" 35) (mkRoutine (Some 5) (Some 8)) I)
                  flat_history)
    as [s [trends [flags [Hrun [_ [_ [_ [Hnat [_ Htip]]]]]]]]].
  exists s. split; [exact Hrun|]. split; assumption.
Defined.

(** ** Caps *)



(** ** The low-data branch *)

(** C7.  With fewer than two historical samples the summary is the
    baseline one: the trend buckets are empty apart from the stable list,
    which holds every current key; the insights are about the first two
    features of the current sample sorted by ascending score, in that
    order; the orchestrator runs with empty trend, stagnation and change
    lists; and the daily summary is the baseline welcome.  For
    brightness 80, texture 20 and dark circles 55 the insights are about
    texture, then dark circles. *)
Theorem low_data_baseline :
  (forall (llm : llm_service) (seed : variation) (cur : analysis)
          (routine : routine_data) (hist : list analysis),
     (length hist < 2)%nat ->
     exists s lowest rest,
       generate_smart_summary llm seed cur routine hist = Ok s /\
       sorted_by_value (features cur) = lowest ++ rest /\
       length lowest = Nat.min 2 (length (features cur)) /\
       Permutation (lowest ++ rest) (features cur) /\
       StronglySorted le_value (lowest ++ rest) /\
       key_insights s =
         map (fun kv => CanImprove (display_name (fst kv)) (snd kv)) lowest /\
       trend_analysis s = mkBuckets [] [] [] (keys (features cur)) /\
       daily_summary s =
         mkDaily "" (WelcomeBaseline (sleep_score cur) (skin_health_score cur)) /\
       recommendations s =
         firstn 6 (fst (fst (fst (unpack
           (_generate_ai_recommendations llm seed cur routine [] [] []))))) /\
       data_points_analyzed s = length hist) /\
  (forall (llm : llm_service) (seed : variation) (sleep skin : Q)
          (routine : routine_data) (hist : list analysis),
     (length hist < 2)%nat ->
     exists s,
       generate_smart_summary llm seed (mkAnalysis three_features sleep skin)
                              routine hist = Ok s /\
       key_insights s = [CanImprove "Skin Texture" 20; CanImprove "Dark Circles" 55]).
Proof.
  assert (Hgeneral : forall llm seed cur routine hist,
    (length hist < 2)%nat ->
    key_insights (baseline_summary llm seed cur routine hist) =
    map (fun kv => CanImprove (display_name (fst kv)) (snd kv))
        (firstn 2 (sorted_by_value (features cur)))).
  { intros. destruct (baseline_summary_fields llm seed cur routine hist) as [-> _].
    apply firstn_all2. rewrite length_map, length_firstn. lia. }
  split.
  - intros llm seed cur routine hist HN.
    exists (baseline_summary llm seed cur routine hist),
           (firstn 2 (sorted_by_value (features cur))),
           (skipn 2 (sorted_by_value (features cur))).
    destruct (baseline_summary_fields llm seed cur routine hist)
      as [_ [Hrecs [_ [_ [_ [Hbuckets [Hdaily Hpoints]]]]]]].
    split; [now apply generate_smart_summary_low_data|].
    split; [now rewrite firstn_skipn|].
    split.
    { rewrite length_firstn.
      now rewrite (Permutation_length (sorted_by_value_perm (features cur))). }
    rewrite firstn_skipn.
    split; [apply sorted_by_value_perm|].
    split; [apply sorted_by_value_sorted|].
    split; [now apply Hgeneral|].
    now repeat split.
  - intros llm seed sleep skin routine hist HN.
    eexists. split; [now apply generate_smart_summary_low_data|].
    now rewrite Hgeneral.
Qed.

Lemma low_data_baseline_witness :
  exists s,
    generate_smart_summary failing_llm innovative_skincare
      (mkAnalysis three_features 70 60) (mkRoutine (Some 5) (Some 8)) []
      = Ok s /\
    key_insights s = [CanImprove "Skin Texture" 20; CanImprove "Dark Circles" 55].
Proof.
  apply (proj2 low_data_baseline failing_llm innovative_skincare 70 60
               (mkRoutine (Some 5) (Some 8)) []).
  simpl. lia.
Defined.

(** ** Determinism of the trend analysis *)

(** C9.  The trend analysis depends on the current sample and the
    history alone: whatever prompt variation is drawn and whatever the
    collaborator answers, the summary carries the same trend buckets, the
    same insights and the same daily summary, and in the normal branch
    the buckets are those of the one trend list the analyser computes. *)
Theorem trend_analysis_deterministic (cur : analysis) (routine : routine_data)
    (hist : list analysis) :
  exists buckets insights daily,
    (forall llm seed,
       exists s,
         generate_smart_summary llm seed cur routine hist = Ok s /\
         trend_analysis s = buckets /\
         key_insights s = insights /\
         daily_summary s = daily) /\
    ((2 <= length hist)%nat ->
     exists trends,
       _analyze_feature_trends cur hist = Ok trends /\
       improving_features buckets = names_with_trend improving trends /\
       declining_features buckets = names_with_trend declining trends /\
       stable_features buckets = names_with_trend stable trends) /\
    (forall llm1 seed1 llm2 seed2 s1 s2,
       generate_smart_summary llm1 seed1 cur routine hist = Ok s1 ->
       generate_smart_summary llm2 seed2 cur routine hist = Ok s2 ->
       trend_analysis s1 = trend_analysis s2).
Proof.
  destruct (Nat.lt_ge_cases (length hist) 2) as [Hlow|Hnormal].
  - exists (mkBuckets [] [] [] (keys (features cur))),
           (firstn 5 (map (fun kv => CanImprove (display_name (fst kv)) (snd kv))
                          (firstn 2 (sorted_by_value (features cur))))),
           (mkDaily "" (WelcomeBaseline (sleep_score cur) (skin_health_score cur))).
    split; [|split; [lia|]].
    + intros llm seed. exists (baseline_summary llm seed cur routine hist).
      destruct (baseline_summary_fields llm seed cur routine hist)
        as [Hins [_ [_ [_ [_ [Hbuckets [Hdaily _]]]]]]].
      split; [now apply generate_smart_summary_low_data|]. now repeat split.
    + intros llm1 seed1 llm2 seed2 s1 s2.
      rewrite !generate_smart_summary_low_data by assumption.
      intros [= <-] [= <-].
      destruct (baseline_summary_fields llm1 seed1 cur routine hist)
        as [_ [_ [_ [_ [_ [-> _]]]]]].
      destruct (baseline_summary_fields llm2 seed2 cur routine hist)
        as [_ [_ [_ [_ [_ [-> _]]]]]].
      reflexivity.
  - destruct (detect_stagnation_ok hist cur) as [flags Hflags].
    assert (Hrun : forall llm seed,
      generate_smart_summary llm seed cur routine hist =
      Ok (summary_of_parts cur routine hist (trends_of cur hist) flags
            (_generate_ai_recommendations llm seed cur routine
               (trends_of cur hist) flags
               (_detect_significant_changes (trends_of cur hist))))).
    { intros llm seed.
      destruct (generate_smart_summary_normal llm seed cur routine hist Hnormal)
        as [flags' [_ [Hflags' Hrun]]].
      assert (flags' = flags) by congruence. now subst. }
    exists (mkBuckets (names_with_trend improving (trends_of cur hist))
                      (names_with_trend declining (trends_of cur hist))
                      flags
                      (names_with_trend stable (trends_of cur hist))),
           (_generate_key_insights (trends_of cur hist)
              (_detect_significant_changes (trends_of cur hist)) flags),
           (_generate_daily_summary cur (trends_of cur hist)
              (_detect_significant_changes (trends_of cur hist)) flags routine).
    split; [|split].
    + intros llm seed. eexists. split; [apply Hrun|]. now repeat split.
    + intros _. exists (trends_of cur hist).
      destruct (generate_smart_summary_normal failing_llm holistic_wellness
                  cur routine hist Hnormal) as [_ [Hanalysis _]].
      now repeat split.
    + intros llm1 seed1 llm2 seed2 s1 s2. rewrite !Hrun.
      now intros [= <-] [= <-].
Qed.

Lemma trend_analysis_deterministic_witness :
  exists s1 s2,
    generate_smart_summary failing_llm innovative_skincare
      (single_feature "dark_circles" 53) (mkRoutine (Some 5) (Some 8))
      rising_history = Ok s1 /\
    generate_smart_summary generous_llm holistic_wellness
      (single_feature "dark_circles" 53) (mkRoutine (Some 5) (Some 8))
      rising_history = Ok s2 /\
    trend_analysis s1 = trend_analysis s2 /\
    improving_features (trend_analysis s1) = ["dark_circles"].
Proof.
  destruct (trend_analysis_deterministic
              (single_feature "dark_circles" 53) (mkRoutine (Some 5) (Some 8))
              rising_history)
    as [buckets [insights [daily [Hall [_ Hsame]]]]].
  destruct (Hall failing_llm innovative_skincare) as [s1 [H1 _]].
  destruct (Hall generous_llm holistic_wellness) as [s2 [H2 _]].
  exists s1, s2. split; [exact H1|]. split; [exact H2|].
  split; [exact (Hsame _ _ _ _ _ _ H1 H2)|].
  vm_compute in H1. injection H1 as <-. reflexivity.
Defined.

(** ** The trend buckets *)

Lemma NoDup_map_eq {A B : Type} (f : A -> B) (l : list A) (x y : A) :
  NoDup (map f l) -> In x l -> In y l -> f x = f y -> x = y.
Proof.
  induction l as [|a l IH]; simpl; [intros _ []|].
  intros Hnd Hx Hy Heq. inversion Hnd as [|? ? Hnotin Hnd']; subst.
  destruct Hx as [->|Hx], Hy as [->|Hy]; auto.
  - exfalso. apply Hnotin. rewrite Heq. now apply in_map.
  - exfalso. apply Hnotin. rewrite <- Heq. now apply in_map.
Qed.

Lemma names_with_trend_in (name : Trend) (trends : list FeatureTrend) (k : string) :
  In k (names_with_trend name trends) <->
  exists t, In t trends /\ trend t = name /\ feature_name t = k.
Proof.
  unfold names_with_trend. rewrite in_map_iff. split.
  - intros [t [Hk Ht]]. apply filter_In in Ht as [Hin Htrend].
    exists t. split; [exact Hin|]. split; [|exact Hk].
    unfold has_trend in Htrend. destruct (trend t), name; auto; discriminate.
  - intros [t [Hin [Htrend Hk]]]. exists t. split; [exact Hk|].
    apply filter_In. split; [exact Hin|].
    unfold has_trend. rewrite Htrend. now destruct name.
Qed.

Lemma detect_stagnation_flagged (hist : list analysis) (cur : analysis)
    (flags : list string) (k : string) :
  _detect_stagnation hist cur = Ok flags -> In k flags ->
  (14 <= length hist)%nat /\
  exists v, In (k, v) (features cur) /\ v < range_bound k "good" 60.
Proof.
  unfold _detect_stagnation, STAGNATION_DURATION.
  destruct (Nat.ltb_spec (length hist) 14) as [H|H];
    [intros [= <-] []|].
  rewrite stagnation_window_lastn. intros Hrun Hin.
  assert (Hwin : (2 <= length (lastn 14 hist))%nat)
    by (rewrite lastn_length; lia).
  destruct (stagnation_loop_spec (lastn 14 hist) (features cur) Hwin)
    as [flags' [Hrun' Hspec]].
  assert (flags' = flags) by congruence. subst.
  apply Hspec in Hin. destruct Hin as [v [Hv Hcheck]].
  split; [exact H|]. exists v. split; [exact Hv|].
  destruct (stagnation_check_spec (lastn 14 hist) k v Hwin)
    as [var [first [last [_ [_ [_ Heq]]]]]].
  rewrite Heq in Hcheck. apply Ok_inj in Hcheck.
  apply andb_true_iff in Hcheck as [_ Hgood]. now apply Qltb_lt.
Qed.

(** C10.  In the normal branch the improving, declining and stable
    buckets come from the trend list and the stagnant bucket from the
    stagnation flags.  A feature whose trend is stagnant and which is not
    flagged -- as when fewer than fourteen samples exist or its current
    value is at or above its "good" bound -- is in none of the four
    buckets, and such a feature exists: the buckets need not cover the
    current sample's features. *)
Theorem trend_buckets_not_a_partition :
  (forall (llm : llm_service) (seed : variation) (cur : analysis)
          (routine : routine_data) (hist : list analysis),
     well_formed (features cur) ->
     (2 <= length hist)%nat ->
     exists s trends flags,
       generate_smart_summary llm seed cur routine hist = Ok s /\
       _analyze_feature_trends cur hist = Ok trends /\
       _detect_stagnation hist cur = Ok flags /\
       improving_features (trend_analysis s) = names_with_trend improving trends /\
       declining_features (trend_analysis s) = names_with_trend declining trends /\
       stable_features (trend_analysis s) = names_with_trend stable trends /\
       stagnant_features (trend_analysis s) = flags /\
       (forall t, In t trends -> trend t = stagnant ->
          ((length hist < 14)%nat \/
           range_bound (feature_name t) "good" 60 <= current_value t) ->
          ~ In (feature_name t) flags) /\
       (forall t, In t trends -> trend t = stagnant ->
          ~ In (feature_name t) flags ->
          In (feature_name t) (keys (features cur)) /\
          ~ In (feature_name t) (improving_features (trend_analysis s)) /\
          ~ In (feature_name t) (declining_features (trend_analysis s)) /\
          ~ In (feature_name t) (stagnant_features (trend_analysis s)) /\
          ~ In (feature_name t) (stable_features (trend_analysis s)))) /\
  (exists s,
     generate_smart_summary failing_llm holistic_wellness
       (single_feature "wrinkles" 35) (mkRoutine None None) short_history = Ok s /\
     In "wrinkles" (keys (features (single_feature "wrinkles" 35))) /\
     trend_analysis s = mkBuckets [] [] [] []).
Proof.
  split; [|eexists; split; [vm_compute; reflexivity|];
           split; [now left | reflexivity]].
  intros llm seed cur routine hist Hwf HN.
  destruct (generate_smart_summary_normal llm seed cur routine hist HN)
    as [flags [Hanalysis [Hflags Hrun]]].
  eexists. exists (trends_of cur hist), flags.
  split; [exact Hrun|]. split; [exact Hanalysis|]. split; [exact Hflags|].
  cbn [summary_of_parts trend_analysis improving_features declining_features
       stable_features stagnant_features].
  do 4 (split; [reflexivity|]).
  assert (Hnames : map feature_name (trends_of cur hist) = keys (features cur))
    by (unfold trends_of; rewrite map_map; reflexivity).
  assert (Hunique : forall t t', In t (trends_of cur hist) ->
            In t' (trends_of cur hist) ->
            feature_name t' = feature_name t -> t' = t).
  { intros t t' Ht Ht' Heq.
    apply (NoDup_map_eq feature_name (trends_of cur hist)); auto.
    rewrite Hnames. exact Hwf. }
  split.
  - intros t Ht Hstag Hwhy Hin.
    destruct (detect_stagnation_flagged hist cur flags _ Hflags Hin)
      as [H14 [v [Hv Hlt]]].
    destruct Hwhy as [Hshort|Hgood]; [lia|].
    unfold trends_of in Ht. apply in_map_iff in Ht.
    destruct Ht as [[k v'] [<- Hitem]].
    cbn [trend_record feature_name current_value fst snd] in *.
    assert ((k, v) = (k, v')).
    { apply (NoDup_map_eq fst (features cur)); auto. }
    injection H as ->. exact (Qlt_not_le _ _ Hlt Hgood).
  - intros t Ht Hstag Hnot.
    split; [rewrite <- Hnames; now apply in_map|].
    repeat split; try exact Hnot;
      intros Hin; apply names_with_trend_in in Hin;
      destruct Hin as [t' [Ht' [Htrend Heq]]];
      apply (Hunique t t' Ht Ht') in Heq; subst; congruence.
Qed.

Lemma trend_buckets_not_a_partition_witness :
  exists s,
    generate_smart_summary failing_llm holistic_wellness
      (single_feature "wrinkles" 35) (mkRoutine None None) short_history = Ok s /\
    stagnant_features (trend_analysis s) = [].
Proof.
  destruct (proj1 trend_buckets_not_a_partition failing_llm holistic_wellness
              (single_feature "wrinkles" 35) (mkRoutine None None) short_history)
    as [s [trends [flags [Hrun [_ [Hflags [_ [_ [_ [Hstag _]]]]]]]]]].
  - repeat constructor. simpl. tauto.
  - simpl. lia.
  - exists s. split; [exact Hrun|]. rewrite Hstag.
    vm_compute in Hflags. now injection Hflags as <-.
Defined.

(** * Further properties *)

(** ** Edge cases of the trend analyser *)

Lemma comparison_period_empty_iff (hist : list analysis) :
  comparison_period hist = [] <-> hist = [].
Proof.
  split.
  - intros H. destruct hist as [|e hist]; [reflexivity|].
    exfalso. now apply (comparison_period_nonempty (e :: hist)).
  - now intros ->.
Qed.

(** X1.  On an empty history the analyser raises the statistics error of
    the empty mean as soon as the current sample has a feature, and
    returns the empty list when it has none; the comparison window is
    empty only for the empty history, so whenever the analyser returns
    trends each previous value is a window mean and never the current
    value taken as a default. *)
Theorem empty_history_raises :
  (forall cur, features cur <> [] ->
     _analyze_feature_trends cur [] = Raise StatisticsError) /\
  (forall cur hist, features cur = [] ->
     _analyze_feature_trends cur hist = Ok []) /\
  (forall hist, comparison_period hist = [] <-> hist = []) /\
  (forall cur hist trends,
     _analyze_feature_trends cur hist = Ok trends -> trends <> [] ->
     comparison_period hist <> [] /\
     Forall (fun t =>
       mean (map (feature_value (feature_name t)) (comparison_period hist))
       = Ok (previous_value t)) trends).
Proof.
  split; [|split; [|split]].
  - intros cur Hne. unfold _analyze_feature_trends.
    destruct (features cur) as [|[k v] rest]; [congruence|]. reflexivity.
  - intros cur hist Hnone. unfold _analyze_feature_trends. now rewrite Hnone.
  - apply comparison_period_empty_iff.
  - intros cur hist trends Hrun Hne.
    destruct hist as [|e hist].
    + exfalso. unfold _analyze_feature_trends in Hrun.
      destruct (features cur) as [|[k v] rest]; simpl in Hrun.
      * injection Hrun as <-. congruence.
      * discriminate.
    + assert (Hh : e :: hist <> []) by discriminate.
      split; [now apply comparison_period_nonempty|].
      rewrite (analyze_feature_trends_ok cur (e :: hist) Hh) in Hrun.
      injection Hrun as <-.
      apply Forall_forall. intros t Ht. apply in_map_iff in Ht.
      destruct Ht as [item [<- _]].
      cbn [trend_record feature_name previous_value].
      rewrite mean_ok.
      * now rewrite Qlen_map.
      * pose proof (comparison_period_nonempty (e :: hist) Hh).
        destruct (comparison_period (e :: hist)); [congruence | discriminate].
Qed.

Lemma empty_history_raises_witness :
  _analyze_feature_trends (single_feature "wrinkles" 35) [] = Raise StatisticsError.
Proof.
  apply (proj1 empty_history_raises (single_feature "wrinkles" 35)).
  discriminate.
Defined.

Lemma classify_change_zero (c : Q) :
  c == 0 -> classify_change c = (stagnant, none).
Proof.
  intros H. unfold classify_change, Qgeb,
    IMPROVEMENT_THRESHOLD, DECLINE_THRESHOLD, STAGNATION_THRESHOLD.
  assert (E1 : Qle_bool 2.0 c = false) by (rewrite H; reflexivity).
  assert (E2 : Qle_bool c (-2.0) = false) by (rewrite H; reflexivity).
  assert (E3 : Qle_bool (Qabs c) 0.5 = true) by (rewrite H; reflexivity).
  now rewrite E1, E2, E3.
Qed.

Lemma windows_coincide (hist : list analysis) :
  length hist = 1%nat \/ length hist = 7%nat ->
  recent_period hist = hist /\ comparison_period hist = hist.
Proof.
  intros Hlen. split.
  - rewrite recent_period_lastn. apply lastn_all. lia.
  - rewrite comparison_period_cases.
    destruct Hlen as [H|H]; rewrite H; cbn [Nat.leb Nat.ltb];
      apply firstn_all2; lia.
Qed.

Lemma float_zero (q : Q) : q == 0 -> float q = 0.
Proof.
  intros H. unfold float.
  assert (Hnum : Qnum q = 0%Z).
  { unfold Qeq in H. cbn [Qnum Qden] in H. lia. }
  now rewrite Hnum.
Qed.

Lemma coinciding_windows_trends (cur : analysis) (hist : list analysis) :
  length hist = 1%nat \/ length hist = 7%nat ->
  Forall (fun t =>
    change t == 0 /\ change_percentage t == 0 /\
    trend t = stagnant /\ significance t = none) (trends_of cur hist).
Proof.
  intros Hlen. destruct (windows_coincide hist Hlen) as [Hr Hc].
  unfold trends_of. rewrite Hr, Hc. apply Forall_forall. intros t Ht.
  apply in_map_iff in Ht. destruct Ht as [item [<- _]].
  cbn [trend_record change change_percentage trend significance].
  set (avg := float (Qsum (map (feature_value (fst item)) hist) / Qlen hist)).
  assert (Hzero : fsub avg avg = 0) by (apply float_zero; ring).
  rewrite Hzero.
  split; [reflexivity|]. split; [|now split].
  destruct (negb (Qeq_bool avg 0)); [|reflexivity].
  assert (Hdiv : fdiv 0 (Qabs avg) = 0)
    by (apply float_zero; unfold Qdiv; ring).
  rewrite Hdiv. unfold fmul. now rewrite float_zero by ring.
Qed.

(** X2.  With exactly one or exactly seven samples the recent window and
    the comparison window are the same samples, so every feature has a
    zero change and a zero percentage and is classified stagnant with
    significance none, whatever the scores are. *)
Theorem coinciding_windows_are_stagnant (cur : analysis) (hist : list analysis) :
  length hist = 1%nat \/ length hist = 7%nat ->
  recent_period hist = comparison_period hist /\
  exists trends,
    _analyze_feature_trends cur hist = Ok trends /\
    map feature_name trends = keys (features cur) /\
    Forall (fun t =>
      change t == 0 /\ change_percentage t == 0 /\
      trend t = stagnant /\ significance t = none) trends.
Proof.
  intros Hlen. destruct (windows_coincide hist Hlen) as [Hr Hc].
  split; [congruence|].
  assert (Hne : hist <> [])
    by (destruct hist; [simpl in Hlen; lia | discriminate]).
  exists (trends_of cur hist).
  split; [now apply analyze_feature_trends_ok|].
  split; [unfold trends_of; rewrite map_map; reflexivity|].
  now apply coinciding_windows_trends.
Qed.

Lemma coinciding_windows_are_stagnant_witness :
  recent_period (firstn 7 rising_history) = comparison_period (firstn 7 rising_history).
Proof.
  apply (coinciding_windows_are_stagnant (single_feature "dark_circles" 46)
           (firstn 7 rising_history)).
  right. reflexivity.
Defined.

Lemma names_with_trend_none (name : Trend) (trends : list FeatureTrend) :
  Forall (fun t => trend t <> name) trends -> names_with_trend name trends = [].
Proof.
  intros H. unfold names_with_trend.
  induction H as [|t trends Ht _ IH]; [reflexivity|].
  simpl. unfold has_trend at 1.
  destruct (trend t), name; try congruence; exact IH.
Qed.

Lemma detect_stagnation_short (hist : list analysis) (cur : analysis) :
  (length hist < 14)%nat -> _detect_stagnation hist cur = Ok [].
Proof.
  intros H. unfold _detect_stagnation, STAGNATION_DURATION.
  now apply Nat.ltb_lt in H as ->.
Qed.

(** X3.  With exactly seven samples the composed summary has four empty
    trend buckets and the "Steady progress" status, whatever the scores,
    the routine and the collaborator's answer are. *)
Theorem seven_samples_are_steady (llm : llm_service) (seed : variation)
    (cur : analysis) (routine : routine_data) (hist : list analysis) :
  length hist = 7%nat ->
  exists s,
    generate_smart_summary llm seed cur routine hist = Ok s /\
    trend_analysis s = mkBuckets [] [] [] [] /\
    status (daily_summary s) = "Steady progress. ".
Proof.
  intros Hlen.
  destruct (generate_smart_summary_normal llm seed cur routine hist)
    as [flags [Hanalysis [Hflags Hrun]]]; [lia|].
  rewrite detect_stagnation_short in Hflags by lia. injection Hflags as <-.
  pose proof (coinciding_windows_trends cur hist (or_intror Hlen)) as Hall.
  assert (Hnot : forall name, name <> stagnant ->
            names_with_trend name (trends_of cur hist) = []).
  { intros name Hname. apply names_with_trend_none.
    eapply Forall_impl; [|exact Hall].
    intros t [_ [_ [Ht _]]]. congruence. }
  eexists. split; [exact Hrun|].
  cbn [summary_of_parts trend_analysis daily_summary].
  rewrite !Hnot by discriminate. split; [reflexivity|].
  unfold _generate_daily_summary.
  fold (names_with_trend improving (trends_of cur hist)).
  assert (Hcount : forall name, name <> stagnant ->
            length (filter (has_trend name) (trends_of cur hist)) = 0%nat).
  { intros name Hname. specialize (Hnot name Hname).
    unfold names_with_trend in Hnot.
    apply (f_equal (@length _)) in Hnot. now rewrite length_map in Hnot. }
  rewrite !Hcount by discriminate. reflexivity.
Qed.

Lemma seven_samples_are_steady_witness :
  exists s,
    generate_smart_summary generous_llm evidence_based
      (single_feature "dark_circles" 90) (mkRoutine (Some 8) None)
      (firstn 7 rising_history) = Ok s /\
    status (daily_summary s) = "Steady progress. ".
Proof.
  destruct (seven_samples_are_steady generous_llm evidence_based
              (single_feature "dark_circles" 90) (mkRoutine (Some 8) None)
              (firstn 7 rising_history) eq_refl)
    as [s [Hrun [_ Hstatus]]].
  exists s. now split.
Defined.

(** ** Trend records *)

Lemma classify_change_pairs (c : Q) :
  match classify_change c with
  | (improving, significant) | (improving, moderate)
  | (declining, significant) | (declining, moderate)
  | (stagnant, none) | (stable, minor) => True
  | _ => False
  end.
Proof.
  unfold classify_change.
  destruct (Qgeb c IMPROVEMENT_THRESHOLD);
    [destruct (Qgeb (Qabs c) 5); exact I|].
  destruct (Qle_bool c DECLINE_THRESHOLD);
    [destruct (Qgeb (Qabs c) 5); exact I|].
  destruct (Qle_bool (Qabs c) STAGNATION_THRESHOLD); exact I.
Qed.

Lemma trend_record_pairs (recent comparison : list analysis) (item : string * Q) :
  let t := trend_record recent comparison item in
  match trend t, significance t with
  | improving, significant | improving, moderate
  | declining, significant | declining, moderate
  | stagnant, none | stable, minor => True
  | _, _ => False
  end.
Proof.
  cbn [trend_record trend significance].
  set (c := fsub _ _). pose proof (classify_change_pairs c) as H.
  now destruct (classify_change c) as [t s].
Qed.

(** X4.  In every list the analyser returns the significance is tied to
    the trend: improving and declining trends are significant or
    moderate, a stagnant trend has significance none and a stable trend
    minor.  So the significant changes are exactly the improving and
    declining trends, in their order. *)
Theorem significant_changes_are_moving_trends (cur : analysis)
    (hist : list analysis) (trends : list FeatureTrend) :
  _analyze_feature_trends cur hist = Ok trends ->
  _detect_significant_changes trends = filter is_moving trends /\
  Forall (fun t =>
    (trend t = improving \/ trend t = declining <->
     significance t = significant \/ significance t = moderate) /\
    (trend t = stagnant <-> significance t = none) /\
    (trend t = stable <-> significance t = minor)) trends.
Proof.
  intros Hrun.
  assert (Hall : Forall (fun t =>
            match trend t, significance t with
            | improving, significant | improving, moderate
            | declining, significant | declining, moderate
            | stagnant, none | stable, minor => True
            | _, _ => False
            end) trends).
  { destruct hist as [|e hist].
    - unfold _analyze_feature_trends in Hrun.
      destruct (features cur) as [|[k v] rest]; simpl in Hrun;
        [injection Hrun as <-; constructor | discriminate].
    - rewrite analyze_feature_trends_ok in Hrun by discriminate.
      injection Hrun as <-. apply Forall_forall. intros t Ht.
      apply in_map_iff in Ht. destruct Ht as [item [<- _]].
      apply trend_record_pairs. }
  split.
  - unfold _detect_significant_changes. apply filter_ext_in.
    intros t Ht. rewrite Forall_forall in Hall. specialize (Hall t Ht).
    unfold is_significant_change, is_moving, has_trend.
    destruct (trend t), (significance t); try reflexivity; contradiction.
  - eapply Forall_impl; [|exact Hall]. intros t Ht.
    cbv beta in Ht.
    destruct (trend t), (significance t); try contradiction;
      intuition congruence.
Qed.

Lemma significant_changes_are_moving_trends_witness :
  exists trends,
    _analyze_feature_trends (single_feature "dark_circles" 53) rising_history
      = Ok trends /\
    _detect_significant_changes trends = filter is_moving trends.
Proof.
  eexists. split; [vm_compute; reflexivity|].
  eapply (significant_changes_are_moving_trends
            (single_feature "dark_circles" 53) rising_history).
  vm_compute. reflexivity.
Defined.

(** X5.  The trend list mirrors the current sample: one record per
    current feature, in the sample's order, holding that feature's key
    and current value; each record's duration is the size of the recent
    window, min(7, N). *)
Theorem trends_mirror_current_sample (cur : analysis)
    (hist : list analysis) (trends : list FeatureTrend) :
  _analyze_feature_trends cur hist = Ok trends ->
  map (fun t => (feature_name t, current_value t)) trends = features cur /\
  Forall (fun t => duration_days t = Nat.min 7 (length hist)) trends.
Proof.
  intros Hrun. destruct hist as [|e hist].
  - unfold _analyze_feature_trends in Hrun.
    destruct (features cur) as [|[k v] rest] eqn:E; simpl in Hrun;
      [injection Hrun as <-; now split | discriminate].
  - rewrite analyze_feature_trends_ok in Hrun by discriminate.
    injection Hrun as <-. split.
    + rewrite map_map. cbn [trend_record feature_name current_value].
      rewrite <- (map_id (features cur)) at 2.
      apply map_ext. now intros [k v].
    + apply Forall_forall. intros t Ht. apply in_map_iff in Ht.
      destruct Ht as [item [<- _]]. cbn [trend_record duration_days].
      rewrite recent_period_lastn, lastn_length. lia.
Qed.

Lemma trends_mirror_current_sample_witness :
  exists trends,
    _analyze_feature_trends (single_feature "dark_circles" 53) rising_history
      = Ok trends /\
    Forall (fun t => duration_days t = 7%nat) trends.
Proof.
  eexists. split; [vm_compute; reflexivity|].
  apply (trends_mirror_current_sample
           (single_feature "dark_circles" 53) rising_history).
  vm_compute. reflexivity.
Defined.

(** ** Stagnation flags *)

Lemma selected_keys_unique (mask : string * Q -> bool) (d : dict Q) :
  well_formed d -> NoDup (keys (filter mask d)).
Proof.
  unfold well_formed, keys.
  induction d as [|[k v] d IH]; intros Hwf; cbn [filter map].
  - constructor.
  - apply NoDup_cons_iff in Hwf as [Hfresh Hrest].
    destruct (mask (k, v)); cbn [map fst]; [|now apply IH].
    apply NoDup_cons_iff. split; [|now apply IH].
    intros Hin. apply Hfresh.
    apply in_map_iff in Hin as [[k' v'] [Hk Hin]].
    apply filter_In in Hin as [Hin _].
    apply in_map_iff. now exists (k', v').
Qed.

Lemma stagnation_loop_mask (window : list analysis) (feats : dict Q)
    (flags : list string) :
  stagnation_loop window feats = Ok flags ->
  flags = map fst (filter (flagged_in window) feats).
Proof.
  revert flags. induction feats as [|[k v] feats IH]; intros flags; simpl.
  - now intros [= <-].
  - unfold flagged_in at 1. cbn [fst snd].
    destruct (stagnation_check window k v) as [flagged|e]; [|discriminate].
    cbn [bind].
    destruct (stagnation_loop window feats) as [others|e]; [|discriminate].
    cbn [bind]. intros [= <-]. rewrite (IH others eq_refl).
    now destruct flagged.
Qed.

(** X6.  The stagnation flags are a selection of the current sample's
    keys in the sample's own order: every flag is a current key, there
    are no more flags than features, and no key is flagged twice. *)
Theorem stagnation_flags_follow_sample_order (hist : list analysis)
    (cur : analysis) :
  exists flags,
    _detect_stagnation hist cur = Ok flags /\
    (exists mask, flags = map fst (filter mask (features cur))) /\
    (forall k, In k flags -> In k (keys (features cur))) /\
    (length flags <= length (features cur))%nat /\
    (well_formed (features cur) -> NoDup flags).
Proof.
  destruct (detect_stagnation_ok hist cur) as [flags Hrun].
  exists flags. split; [exact Hrun|].
  assert (Hmask : exists mask, flags = map fst (filter mask (features cur))).
  { unfold _detect_stagnation in Hrun.
    destruct (length hist <? STAGNATION_DURATION)%nat.
    - injection Hrun as <-. exists (fun _ => false).
      induction (features cur); simpl; auto.
    - exists (flagged_in (stagnation_window hist)).
      now apply stagnation_loop_mask. }
  destruct Hmask as [mask ->].
  split; [now exists mask|]. split; [|split].
  - intros k Hk. apply in_map_iff in Hk. destruct Hk as [kv [<- Hin]].
    apply filter_In in Hin as [Hin _]. now apply in_map.
  - rewrite length_map. apply filter_length_le.
  - apply selected_keys_unique.
Qed.

Lemma stagnation_flags_follow_sample_order_witness :
  exists flags,
    _detect_stagnation flat_history (single_feature "wrinkles" 35) = Ok flags /\
    NoDup flags.
Proof.
  destruct (stagnation_flags_follow_sample_order flat_history
              (single_feature "wrinkles" 35))
    as [flags [Hrun [_ [_ [_ Hnodup]]]]].
  exists flags. split; [exact Hrun|].
  apply Hnodup. repeat constructor. simpl. tauto.
Defined.

(** ** A constant window *)

Lemma Qlen_cons {A : Type} (x : A) (l : list A) : Qlen (x :: l) == 1 + Qlen l.
Proof.
  unfold Qlen. cbn [length]. rewrite Nat2Z.inj_succ. unfold Z.succ.
  rewrite inject_Z_plus. ring.
Qed.

Lemma Qlen_nonneg {A : Type} (l : list A) : 0 <= Qlen l.
Proof.
  unfold Qlen. change 0 with (inject_Z 0). rewrite <- Zle_Qle. lia.
Qed.

Lemma Qsum_constant (V : Q) (l : list Q) :
  Forall (fun x => x == V) l -> Qsum l == Qlen l * V.
Proof.
  induction 1 as [|x l Hx _ IH].
  - unfold Qlen. simpl. ring.
  - cbn [Qsum fold_right]. fold (Qsum l). rewrite Qlen_cons, IH, Hx. ring.
Qed.

Lemma Qsum_zero (l : list Q) :
  Forall (fun x => x == 0) l -> Qsum l == 0.
Proof.
  intros H. rewrite (Qsum_constant 0 l H). ring.
Qed.

Lemma variance_constant (V : Q) (data : list Q) (var : Q) :
  Forall (fun x => x == V) data -> variance data = Ok var -> var == 0.
Proof.
  intros Hall Hvar.
  destruct data as [|a [|b rest]]; try discriminate.
  remember (a :: b :: rest) as data eqn:Edata.
  assert (Hvar' : var = float (Qsum (map (fun x => (x - Qsum data / Qlen data)
                                                    * (x - Qsum data / Qlen data)) data)
                               / (Qlen data - 1))).
  { rewrite Edata in *. unfold variance in Hvar. now injection Hvar as <-. }
  assert (Hpos : ~ Qlen data == 0).
  { rewrite Edata, Qlen_cons. pose proof (Qlen_nonneg (b :: rest)). lra. }
  assert (Hmean : Qsum data / Qlen data == V).
  { rewrite (Qsum_constant V data Hall). now field. }
  rewrite Hvar'. rewrite float_zero; [reflexivity|].
  unfold Qdiv at 1. rewrite Qsum_zero; [ring|].
  apply Forall_forall. intros y Hy. apply in_map_iff in Hy.
  destruct Hy as [x [<- Hx]]. rewrite Forall_forall in Hall.
  rewrite (Hall x Hx), Hmean. ring.
Qed.

Lemma first_item_in (l : list Q) (x : Q) : first_item l = Ok x -> In x l.
Proof. destruct l; simpl; [discriminate|]. intros [= ->]. now left. Qed.

Lemma last_item_in (l : list Q) (x : Q) : last_item l = Ok x -> In x l.
Proof.
  unfold last_item. destruct (rev l) as [|y r] eqn:E; [discriminate|].
  intros [= ->]. apply in_rev. rewrite E. now left.
Qed.

(** X7.  When a feature holds one constant score over the last fourteen
    samples, the variance and the total change are both zero, so the
    feature is flagged exactly when the current sample's value is below
    the feature's "good" bound. *)
Theorem constant_window_is_flagged_below_good (hist : list analysis)
    (cur : analysis) (k : string) (V : Q) :
  (14 <= length hist)%nat ->
  Forall (fun entry => feature_value k entry == V) (lastn 14 hist) ->
  exists flags,
    _detect_stagnation hist cur = Ok flags /\
    (In k flags <->
     exists v, In (k, v) (features cur) /\ v < range_bound k "good" 60).
Proof.
  intros Hlen Hconst.
  destruct (detect_stagnation_ok hist cur) as [flags Hrun].
  exists flags. split; [exact Hrun|].
  split; [intros Hin; now apply (detect_stagnation_flagged hist cur flags k)|].
  intros [v [Hv Hgood]].
  unfold _detect_stagnation, STAGNATION_DURATION in Hrun.
  destruct (Nat.ltb_spec (length hist) 14); [lia|].
  rewrite stagnation_window_lastn in Hrun.
  assert (Hwin : (2 <= length (lastn 14 hist))%nat)
    by (rewrite lastn_length; lia).
  destruct (stagnation_loop_spec (lastn 14 hist) (features cur) Hwin)
    as [flags' [Hrun' Hspec]].
  assert (flags' = flags) by congruence. subst flags'.
  apply Hspec. exists v. split; [exact Hv|].
  destruct (stagnation_check_spec (lastn 14 hist) k v Hwin)
    as [var [first [last [Hvar [Hfirst [Hlast ->]]]]]].
  assert (Hvals : Forall (fun x => x == V) (map (feature_value k) (lastn 14 hist))).
  { apply Forall_forall. intros x Hx. apply in_map_iff in Hx.
    destruct Hx as [entry [<- Hentry]]. rewrite Forall_forall in Hconst.
    now apply Hconst. }
  assert (Hzero : var == 0) by (eapply variance_constant; eassumption).
  rewrite Forall_forall in Hvals.
  assert (Hf : first == V) by (apply Hvals; now apply first_item_in).
  assert (Hl : last == V) by (apply Hvals; now apply last_item_in).
  f_equal.
  assert (E1 : Qltb var 2.0 = true) by (apply Qltb_lt; rewrite Hzero; reflexivity).
  assert (E2 : Qltb (Qabs (fsub last first)) 2.0 = true).
  { apply Qltb_lt. unfold fsub. rewrite float_zero; [reflexivity|].
    rewrite Hf, Hl. ring. }
  assert (E3 : Qltb v (range_bound k "good" 60) = true) by now apply Qltb_lt.
  now rewrite E1, E2, E3.
Qed.

Lemma constant_window_is_flagged_below_good_witness :
  exists flags,
    _detect_stagnation flat_history (single_feature "wrinkles" 59) = Ok flags /\
    In "wrinkles" flags.
Proof.
  destruct (constant_window_is_flagged_below_good flat_history
              (single_feature "wrinkles" 59) "wrinkles" 35)
    as [flags [Hrun Hiff]].
  - simpl. lia.
  - repeat constructor.
  - exists flags. split; [exact Hrun|]. apply Hiff.
    exists 59. split; [now left | reflexivity].
Defined.

(** ** Severity labels *)

Lemma get_in {V : Type} (d : dict V) (k : string) (v : V) :
  get d k = Some v -> In (k, v) d.
Proof.
  induction d as [|[k' v'] d IH]; simpl; [discriminate|].
  destruct (String.eqb_spec k' k) as [->|_].
  - intros [= ->]. now left.
  - intros H. right. now apply IH.
Qed.

Lemma good_below_excellent (k : string) :
  range_bound k "good" 60 <= range_bound k "excellent" 75.
Proof.
  unfold range_bound. unfold get_default at 2 4.
  destruct (get FEATURE_RANGES k) as [table|] eqn:E.
  - apply get_in in E. simpl in E.
    repeat (destruct E as [E|E]; [injection E as _ <-; cbv; discriminate|]).
    contradiction.
  - cbv. discriminate.
Qed.

Ltac split_on_bounds :=
  repeat match goal with
         | |- context [Qgeb ?a ?b] =>
             let E := fresh "E" in
             destruct (Qgeb a b) eqn:E;
             [apply Qgeb_ge in E | apply Qgeb_lt in E]
         end.

(** X8.  The severity label never gets worse as the score grows, for
    every feature key, known or not; the best label is given exactly at
    or above the key's "excellent" bound and the worst exactly below
    every one of its bounds. *)
Theorem severity_is_monotone (feature_key : string) :
  (forall v1 v2, v1 <= v2 ->
     (severity_rank (_get_severity_level feature_key v1)
      <= severity_rank (_get_severity_level feature_key v2))%nat) /\
  (forall v, _get_severity_level feature_key v = Excellent <->
             range_bound feature_key "excellent" 75 <= v) /\
  (forall v, _get_severity_level feature_key v = NeedsAttention <->
             v < range_bound feature_key "excellent" 75 /\
             v < range_bound feature_key "good" 60 /\
             v < range_bound feature_key "fair" 45 /\
             v < range_bound feature_key "poor" 30).
Proof.
  unfold _get_severity_level. split; [|split].
  - intros v1 v2 Hle. split_on_bounds; cbn [severity_rank]; try lia;
      exfalso; lra.
  - intros v. split_on_bounds; split; intros H;
      try reflexivity; try discriminate; try assumption; exfalso; lra.
  - intros v. split_on_bounds; split; intros H;
      try reflexivity; try discriminate; try (repeat split; assumption);
      exfalso; lra.
Qed.

Lemma severity_is_monotone_witness :
  (severity_rank (_get_severity_level "brightness" 40)
   <= severity_rank (_get_severity_level "brightness" 70))%nat.
Proof.
  apply (proj1 (severity_is_monotone "brightness")). discriminate.
Defined.

(** X9.  A flagged feature is labelled worse than "Good": its current
    value gets the label Fair, Poor or Needs Attention. *)
Theorem flagged_features_are_below_good (hist : list analysis)
    (cur : analysis) (flags : list string) (k : string) :
  _detect_stagnation hist cur = Ok flags -> In k flags ->
  exists v,
    In (k, v) (features cur) /\
    (_get_severity_level k v = Fair \/
     _get_severity_level k v = Poor \/
     _get_severity_level k v = NeedsAttention).
Proof.
  intros Hrun Hin.
  destruct (detect_stagnation_flagged hist cur flags k Hrun Hin)
    as [_ [v [Hv Hgood]]].
  exists v. split; [exact Hv|].
  pose proof (good_below_excellent k) as Hbands.
  unfold _get_severity_level. split_on_bounds; auto; exfalso; lra.
Qed.

Lemma flagged_features_are_below_good_witness :
  exists v,
    In ("wrinkles", v) (features (single_feature "wrinkles" 35)) /\
    (_get_severity_level "wrinkles" v = Fair \/
     _get_severity_level "wrinkles" v = Poor \/
     _get_severity_level "wrinkles" v = NeedsAttention).
Proof.
  apply (flagged_features_are_below_good flat_history
           (single_feature "wrinkles" 35) ["wrinkles"] "wrinkles").
  - vm_compute. reflexivity.
  - now left.
Defined.

(** ** The order of the insights *)

Lemma fold_add_excellent (trends : list FeatureTrend) (base : list insight) :
  fold_left add_excellent trends base =
  base ++ firstn (5 - length base) (excellent_insights trends).
Proof.
  revert base. induction trends as [|t trends IH]; intros base.
  - simpl. unfold excellent_insights. simpl.
    now rewrite firstn_nil, app_nil_r.
  - cbn [fold_left]. rewrite IH. unfold add_excellent, excellent_insights.
    cbn [filter]. unfold is_excellent at 2.
    destruct (Qgeb (current_value t) _); [|reflexivity].
    destruct (Nat.ltb_spec (length base) 5) as [Hlt|Hge].
    + rewrite length_app. cbn [length map].
      replace (5 - length base)%nat with (S (5 - (length base + 1)))%nat by lia.
      cbn [firstn]. now rewrite <- app_assoc.
    + replace (5 - length base)%nat with 0%nat by lia. reflexivity.
Qed.

Lemma key_insights_equation (feature_trends significant_changes : list FeatureTrend)
    (flags : list string) :
  _generate_key_insights feature_trends significant_changes flags
  = firstn 6 (priority_insights significant_changes flags
              ++ firstn (5 - length (priority_insights significant_changes flags))
                        (excellent_insights feature_trends)).
Proof.
  unfold _generate_key_insights.
  change (Some 6%Z) with (Some (Z.of_nat 6)).
  rewrite slice_prefix, fold_add_excellent. reflexivity.
Qed.

(** X10.  The insights come in priority order -- improvements, declines,
    stagnation alerts -- and the "excellent" insights only fill the list
    up to five entries, although the list is cut at six: with five or
    more insights of the first three priorities no "excellent" insight is
    ever shown. *)
Theorem insights_priority_order (feature_trends significant_changes : list FeatureTrend)
    (flags : list string) :
  let first := priority_insights significant_changes flags in
  let fill := firstn (5 - length first) (excellent_insights feature_trends) in
  _generate_key_insights feature_trends significant_changes flags
    = firstn 6 (first ++ fill) /\
  ((length first < 5)%nat ->
     _generate_key_insights feature_trends significant_changes flags
       = first ++ fill /\
     (length (first ++ fill) <= 5)%nat) /\
  ((5 <= length first)%nat ->
     _generate_key_insights feature_trends significant_changes flags
       = firstn 6 first).
Proof.
  cbv zeta.
  assert (Heq : _generate_key_insights feature_trends significant_changes flags
                = firstn 6 (priority_insights significant_changes flags
                            ++ firstn (5 - length (priority_insights
                                                     significant_changes flags))
                                      (excellent_insights feature_trends))).
  { apply key_insights_equation. }
  split; [exact Heq|]. split.
  - intros Hlt.
    assert (Hlen : (length (priority_insights significant_changes flags
                     ++ firstn (5 - length (priority_insights
                                              significant_changes flags))
                               (excellent_insights feature_trends)) <= 5)%nat).
    { rewrite length_app, length_firstn. lia. }
    split; [|exact Hlen]. rewrite Heq. apply firstn_all2. lia.
  - intros Hge. rewrite Heq.
    replace (5 - length (priority_insights significant_changes flags))%nat
      with 0%nat by lia.
    now rewrite firstn_0, app_nil_r.
Qed.

Lemma insights_priority_order_witness :
  _generate_key_insights three_improving three_improving ["wrinkles"; "texture"]
  = firstn 6 (priority_insights three_improving ["wrinkles"; "texture"]).
Proof.
  apply (insights_priority_order three_improving three_improving
           ["wrinkles"; "texture"]).
  simpl. lia.
Defined.

(** ** Short histories *)

Lemma firstn_incl {A : Type} (n : nat) (l : list A) : incl (firstn n l) l.
Proof.
  intros x Hx. replace l with (firstn n l ++ skipn n l) by apply firstn_skipn.
  apply in_or_app. now left.
Qed.

(** X11.  With two to thirteen samples no feature is reported as
    plateaued: the stagnant bucket is empty, no insight is a stagnation
    alert and the status is never "Time for changes". *)
Theorem short_history_reports_no_plateau (llm : llm_service) (seed : variation)
    (cur : analysis) (routine : routine_data) (hist : list analysis) :
  (2 <= length hist < 14)%nat ->
  exists s,
    generate_smart_summary llm seed cur routine hist = Ok s /\
    stagnant_features (trend_analysis s) = [] /\
    (forall name, ~ In (NotImproved name) (key_insights s)) /\
    status (daily_summary s) <> "Time for changes. ".
Proof.
  intros [H2 H14].
  destruct (generate_smart_summary_normal llm seed cur routine hist H2)
    as [flags [_ [Hflags Hrun]]].
  rewrite detect_stagnation_short in Hflags by exact H14.
  injection Hflags as <-.
  eexists. split; [exact Hrun|].
  cbn [summary_of_parts trend_analysis stagnant_features key_insights
       daily_summary].
  split; [reflexivity|]. split.
  - intros name Hin.
    rewrite key_insights_equation in Hin.
    apply firstn_incl in Hin. unfold priority_insights in Hin.
    cbn [map] in Hin. rewrite app_nil_r in Hin.
    repeat (apply in_app_or in Hin; destruct Hin as [Hin|Hin]);
      try (apply firstn_incl in Hin);
      apply in_map_iff in Hin; destruct Hin as [t [Ht _]]; discriminate.
  - unfold _generate_daily_summary. cbn [length Nat.leb].
    repeat match goal with
           | |- context [if ?b then _ else _] => destruct b
           end; cbn [status]; discriminate.
Qed.

Lemma short_history_reports_no_plateau_witness :
  exists s,
    generate_smart_summary failing_llm holistic_wellness
      (single_feature "wrinkles" 35) (mkRoutine None None) short_history = Ok s /\
    status (daily_summary s) <> "Time for changes. ".
Proof.
  destruct (short_history_reports_no_plateau failing_llm holistic_wellness
              (single_feature "wrinkles" 35) (mkRoutine None None) short_history)
    as [s [Hrun [_ [_ Hstatus]]]].
  - simpl. lia.
  - exists s. now split.
Defined.

(** ** When the generative path is taken *)

Lemma generative_path_on_list (llm : llm_service) (seed : variation)
    (cur : analysis) (routine : routine_data)
    (entries : list (string * pyval)) (items : list pyval) :
  llm (mkRequest cur routine (build_prompt seed cur)) = Ok (PDict entries) ->
  get_default entries "recommendations" (PList []) = PList items ->
  items <> [] ->
  generative_path llm seed cur routine =
  (natural <- py_prefix 2 (get_default entries "natural_remedies" (PList [])) ;;
   products <- py_prefix 2 (get_default entries "product_recommendations" (PList [])) ;;
   Ok (RecDict (map generative (firstn 4 items)
                  ++ [deterministic (_get_lifestyle_recommendation routine)])
               natural products (_get_lifestyle_recommendation routine))).
Proof.
  intros Hllm Hrecs Hne. unfold generative_path. rewrite Hllm. cbn [bind].
  assert (Hentries : truthy (PDict entries) = true).
  { destruct entries; [|reflexivity].
    unfold get_default in Hrecs. simpl in Hrecs. congruence. }
  rewrite Hentries. cbv zeta. rewrite Hrecs. cbn [py_len bind].
  assert (Hitems : truthy (PList items) && (1 <=? length items)%nat = true)
    by (destruct items; [congruence | reflexivity]).
  rewrite Hitems. cbn [py_prefix bind py_append].
  now rewrite slice_prefix.
Qed.

(** X12.  The generative path is taken exactly when the collaborator
    returns a dictionary whose recommendations field is a non-empty
    list and whose two category fields, where present, are lists or
    strings; the result is then the first four recommendations followed
    by the lifestyle tip.  Valid recommendations are discarded for the
    rule engine's list as soon as one category field cannot be sliced. *)
Theorem generative_path_succeeds_iff (llm : llm_service) (seed : variation)
    (cur : analysis) (routine : routine_data) :
  (forall r,
     generative_path llm seed cur routine = Ok r <->
     exists entries items natural products,
       llm (mkRequest cur routine (build_prompt seed cur)) = Ok (PDict entries) /\
       get_default entries "recommendations" (PList []) = PList items /\
       items <> [] /\
       py_prefix 2 (get_default entries "natural_remedies" (PList [])) = Ok natural /\
       py_prefix 2 (get_default entries "product_recommendations" (PList []))
         = Ok products /\
       r = RecDict (map generative (firstn 4 items)
                      ++ [deterministic (_get_lifestyle_recommendation routine)])
                   natural products (_get_lifestyle_recommendation routine)) /\
  (forall entries items e trends flags changes,
     llm (mkRequest cur routine (build_prompt seed cur)) = Ok (PDict entries) ->
     get_default entries "recommendations" (PList []) = PList items ->
     items <> [] ->
     py_prefix 2 (get_default entries "natural_remedies" (PList [])) = Raise e \/
     py_prefix 2 (get_default entries "product_recommendations" (PList [])) = Raise e ->
     _generate_ai_recommendations llm seed cur routine trends flags changes
     = RecList (rule_engine cur routine trends flags)).
Proof.
  split.
  - intros r. split.
    + intros Hrun.
      assert (Hshape : exists entries items,
        llm (mkRequest cur routine (build_prompt seed cur)) = Ok (PDict entries) /\
        get_default entries "recommendations" (PList []) = PList items /\
        items <> []).
      { unfold generative_path in Hrun.
        destruct (llm _) as [response|e]; [|discriminate].
        cbn [bind] in Hrun.
        destruct response as [| | | | |entries]; try discriminate.
        destruct (truthy (PDict entries)); [|discriminate].
        cbv zeta in Hrun.
        destruct (get_default entries "recommendations" (PList []))
          as [| | |s|items|d] eqn:Hrecs; cbn [py_len bind] in Hrun;
          try discriminate.
        - destruct (truthy (PStr s) && _); [|discriminate].
          cbn [py_prefix bind py_append] in Hrun. discriminate.
        - destruct items as [|item items]; [discriminate|].
          exists entries, (item :: items). repeat split; auto. discriminate.
        - destruct (truthy (PDict d) && _); discriminate. }
      destruct Hshape as [entries [items [Hllm [Hrecs Hne]]]].
      rewrite (generative_path_on_list llm seed cur routine entries items
                 Hllm Hrecs Hne) in Hrun.
      destruct (py_prefix 2 (get_default entries "natural_remedies" (PList [])))
        as [natural|e] eqn:Hnat; [|discriminate].
      destruct (py_prefix 2 (get_default entries "product_recommendations" (PList [])))
        as [products|e] eqn:Hprod; [|discriminate].
      cbn [bind] in Hrun. injection Hrun as <-.
      exists entries, items, natural, products. repeat split; auto.
    + intros [entries [items [natural [products
        [Hllm [Hrecs [Hne [Hnat [Hprod ->]]]]]]]]].
      rewrite (generative_path_on_list llm seed cur routine entries items
                 Hllm Hrecs Hne).
      now rewrite Hnat, Hprod.
  - intros entries items e trends flags changes Hllm Hrecs Hne Hbad.
    unfold _generate_ai_recommendations.
    rewrite (generative_path_on_list llm seed cur routine entries items
               Hllm Hrecs Hne).
    destruct Hbad as [Hbad|Hbad].
    + now rewrite Hbad.
    + rewrite Hbad.
      now destruct (py_prefix 2 (get_default entries "natural_remedies" (PList []))).
Qed.

Lemma generative_path_succeeds_iff_witness :
  _generate_ai_recommendations malformed_llm holistic_wellness
    (single_feature "wrinkles" 35) (mkRoutine (Some 5) (Some 8)) [] [] []
  = RecList (rule_engine (single_feature "wrinkles" 35)
                         (mkRoutine (Some 5) (Some 8)) [] []).
Proof.
  eapply (proj2 (generative_path_succeeds_iff malformed_llm holistic_wellness
                   (single_feature "wrinkles" 35) (mkRoutine (Some 5) (Some 8)))).
  - reflexivity.
  - reflexivity.
  - discriminate.
  - left. reflexivity.
Defined.

(** ** The focus features of the prompt *)

Lemma insert_by_value_filter (q : Q) (x : string * Q) (l : list (string * Q)) :
  filter (has_score q) (insert_by_value x l) = filter (has_score q) (x :: l).
Proof.
  induction l as [|y l IH]; [reflexivity|].
  cbn [insert_by_value].
  destruct (Qltb (snd y) (snd x)) eqn:E; [|reflexivity].
  apply Qltb_lt in E. cbn [filter] in *. rewrite IH.
  destruct (has_score q x) eqn:Hx; [|reflexivity].
  destruct (has_score q y) eqn:Hy; [|reflexivity].
  exfalso. unfold has_score in Hx, Hy.
  apply Qeq_bool_iff in Hx, Hy. rewrite Hx, Hy in E.
  exact (Qlt_irrefl q E).
Qed.

Lemma sorted_by_value_filter (q : Q) (l : list (string * Q)) :
  filter (has_score q) (sorted_by_value l) = filter (has_score q) l.
Proof.
  induction l as [|x l IH]; [reflexivity|].
  cbn [sorted_by_value fold_right]. fold (sorted_by_value l).
  rewrite insert_by_value_filter. cbn [filter]. now rewrite IH.
Qed.

Lemma firstn_two_shape {A : Type} (l : list A) (a b : A) :
  firstn 2 l = [a; b] -> l = a :: b :: skipn 2 l.
Proof.
  intros H. rewrite <- (firstn_skipn 2 l) at 1. now rewrite H.
Qed.

(** X13.  The two focus features of the prompt are the two lowest
    scoring features of the current sample, lowest first, and every
    other feature scores at least as much as the second; features of
    equal score keep the order they have in the sample. *)
Theorem prompt_focuses_on_lowest_two (seed : variation) (cur : analysis) :
  (forall q,
     filter (has_score q) (sorted_by_value (features cur))
     = filter (has_score q) (features cur)) /\
  (forall a b,
     worst_two (features cur) = [a; b] ->
     build_prompt seed cur
     = mkPrompt seed (display_name (fst a)) (snd a) (display_name (fst b)) (snd b) /\
     snd a <= snd b /\
     exists rest,
       Permutation (a :: b :: rest) (features cur) /\
       Forall (fun item => snd b <= snd item) rest) /\
  ((2 <= length (features cur))%nat ->
     exists a b, worst_two (features cur) = [a; b]).
Proof.
  split; [intros q; apply sorted_by_value_filter|]. split.
  - intros a b Hworst.
    split; [unfold build_prompt; now rewrite Hworst|].
    unfold worst_two in Hworst. change (Some 2%Z) with (Some (Z.of_nat 2)) in Hworst.
    rewrite slice_prefix in Hworst. apply firstn_two_shape in Hworst.
    pose proof (sorted_by_value_sorted (features cur)) as Hsorted.
    pose proof (sorted_by_value_perm (features cur)) as Hperm.
    rewrite Hworst in Hsorted, Hperm.
    inversion Hsorted as [|? ? Hs1 Ha]; subst.
    inversion Hs1 as [|? ? _ Hb]; subst.
    split; [now inversion Ha|].
    exists (skipn 2 (sorted_by_value (features cur))). now split.
  - intros Hlen. unfold worst_two.
    change (Some 2%Z) with (Some (Z.of_nat 2)). rewrite slice_prefix.
    pose proof (Permutation_length (sorted_by_value_perm (features cur))) as Hl.
    destruct (sorted_by_value (features cur)) as [|a [|b rest]];
      simpl in Hl; try lia.
    now exists a, b.
Qed.

Lemma prompt_focuses_on_lowest_two_witness :
  build_prompt evidence_based (mkAnalysis three_features 70 60)
  = mkPrompt evidence_based "Skin Texture" 20 "Dark Circles" 55.
Proof.
  apply (proj1 (proj2 (prompt_focuses_on_lowest_two evidence_based
                         (mkAnalysis three_features 70 60)))
               ("texture", 20) ("dark_circles", 55)).
  reflexivity.
Defined.

(** ** The first-time summary *)

Lemma weak_area_insight_length (item : string * Q) :
  (length (weak_area_insight item) <= 1)%nat.
Proof.
  destruct item as [k v]. unfold weak_area_insight.
  destruct (Qltb v _); [simpl; lia|]. destruct (Qltb v _); simpl; lia.
Qed.

(** X14.  The first-time summary slices what the orchestrator returned
    outside its [try]: when the generative path succeeds the orchestrator
    returns a dictionary and the function raises instead of returning a
    summary.  When the generative path fails it returns the rule
    engine's list for empty trend context; the texts of its own handler
    are never used.  Its insights are the two fixed opening lines
    followed by at most two weak-area lines. *)
Theorem first_time_summary_needs_the_fallback (llm : llm_service)
    (seed : variation) (cur : analysis) (routine : routine_data) :
  (forall r, generative_path llm seed cur routine = Ok r ->
     exists e, _generate_first_time_summary llm seed cur routine = Raise e) /\
  (forall e, generative_path llm seed cur routine = Raise e ->
     exists s,
       _generate_first_time_summary llm seed cur routine = Ok s /\
       ft_recommendations s
         = map FromOrchestrator (rule_engine cur routine [] []) /\
       exists weak,
         ft_key_insights s
           = FirstAnalysisComplete
             :: BaselineScores (sleep_score cur) (skin_health_score cur) :: weak /\
         (length weak <= 2)%nat) /\
  (forall s, _generate_first_time_summary llm seed cur routine = Ok s ->
     Forall (fun r => exists t, r = FromOrchestrator (deterministic t))
            (ft_recommendations s)).
Proof.
  assert (Hfail : forall e, generative_path llm seed cur routine = Raise e ->
    exists s,
      _generate_first_time_summary llm seed cur routine = Ok s /\
      ft_recommendations s = map FromOrchestrator (rule_engine cur routine [] []) /\
      exists weak,
        ft_key_insights s
          = FirstAnalysisComplete
            :: BaselineScores (sleep_score cur) (skin_health_score cur) :: weak /\
        (length weak <= 2)%nat).
  { intros e He. unfold _generate_first_time_summary, _generate_ai_recommendations.
    rewrite He. cbn [catch first_six bind].
    eexists. split; [reflexivity|].
    cbn [ft_recommendations ft_key_insights].
    change (Some 6%Z) with (Some (Z.of_nat 6)).
    change (Some 5%Z) with (Some (Z.of_nat 5)).
    change (Some 2%Z) with (Some (Z.of_nat 2)).
    rewrite !slice_prefix.
    split.
    - f_equal. apply firstn_all2.
      pose proof (rule_engine_length cur routine [] []). lia.
    - exists (flat_map weak_area_insight (firstn 2 (sorted_by_value (features cur)))).
      assert (Hweak : (length (flat_map weak_area_insight
                         (firstn 2 (sorted_by_value (features cur)))) <= 2)%nat).
      { etransitivity;
          [apply flat_map_length_le; apply weak_area_insight_length|].
        rewrite length_firstn. lia. }
      split; [|exact Hweak].
      apply firstn_all2. cbn [app length]. lia. }
  split; [|split; [exact Hfail|]].
  - intros r Hr.
    destruct (generative_path_success llm seed cur routine r Hr)
      as [items [natural [products [-> _]]]].
    unfold _generate_first_time_summary, _generate_ai_recommendations.
    rewrite Hr. cbn [catch first_six bind]. now exists TypeError.
  - intros s Hs.
    destruct (generative_path llm seed cur routine) as [r|e] eqn:Hgen.
    + destruct (generative_path_success llm seed cur routine r Hgen)
        as [items [natural [products [-> _]]]].
      unfold _generate_first_time_summary, _generate_ai_recommendations in Hs.
      rewrite Hgen in Hs. cbn [catch first_six bind] in Hs. discriminate.
    + destruct (Hfail e eq_refl) as [s' [Hs' [Hrecs _]]].
      assert (s' = s) by congruence. subst s'. rewrite Hrecs.
      apply Forall_forall. intros x Hx. apply in_map_iff in Hx.
      destruct Hx as [r [<- Hr]].
      pose proof (rule_engine_deterministic cur routine [] []) as Hdet.
      rewrite Forall_forall in Hdet. specialize (Hdet r Hr).
      destruct r as [v|t]; [discriminate|]. now exists t.
Qed.

Lemma first_time_summary_needs_the_fallback_witness :
  exists e,
    _generate_first_time_summary generous_llm evidence_based
      (single_feature "wrinkles" 35) (mkRoutine (Some 5) (Some 8)) = Raise e.
Proof.
  eapply (proj1 (first_time_summary_needs_the_fallback generous_llm evidence_based
                   (single_feature "wrinkles" 35) (mkRoutine (Some 5) (Some 8)))).
  vm_compute. reflexivity.
Defined.

(** ** The plain rule-based recommendations *)

Lemma max_by_abs_change_spec (best : FeatureTrend) (rest : list FeatureTrend) :
  In (max_by_abs_change best rest) (best :: rest) /\
  Forall (fun t => Qabs (change t) <= Qabs (change (max_by_abs_change best rest)))
         (best :: rest).
Proof.
  revert best. induction rest as [|t rest IH]; intros best.
  - split; [now left|]. constructor; [apply Qle_refl | constructor].
  - cbn [max_by_abs_change].
    destruct (Qltb (Qabs (change best)) (Qabs (change t))) eqn:E;
      [apply Qltb_lt in E | apply Qltb_ge in E].
    + destruct (IH t) as [Hin Hall]. split.
      * right. exact Hin.
      * inversion Hall as [|? ? Ht Hrest]; subst.
        constructor; [|now constructor].
        apply Qle_trans with (Qabs (change t)); [now apply Qlt_le_weak | exact Ht].
    + destruct (IH best) as [Hin Hall]. split.
      * destruct Hin as [<-|Hin]; [now left | right; now right].
      * inversion Hall as [|? ? Hb Hrest]; subst.
        constructor; [exact Hb|]. constructor; [|exact Hrest].
        now apply Qle_trans with (Qabs (change best)).
Qed.

(** X15.  [_generate_recommendations] gives the rule engine's feature
    remedies, then a sleep text when the sleep hours (0 when absent) are
    under 7, a water text when the intake (0 when absent) is under 6,
    and, when some trend improves, one closing text about an improving
    trend whose absolute change is the largest.  There are at most seven
    entries, so the cut at eight never removes one. *)
Theorem plain_recommendations_layout (cur : analysis)
    (trends : list FeatureTrend) (flags : list string) (routine : routine_data) :
  exists sleep water closing,
    _generate_recommendations cur trends flags routine
      = map Remedy (remedies_for_declining routine trends
                    ++ remedies_for_stagnant cur routine flags)
        ++ sleep ++ water ++ closing /\
    (length (_generate_recommendations cur trends flags routine) <= 7)%nat /\
    sleep = (if Qltb (or_default (sleep_hours routine) 0) 7
             then [AimForSleep (or_default (sleep_hours routine) 0)] else []) /\
    water = (if Qltb (or_default (water_intake routine) 0) 6
             then [IncreaseWaterTo (or_default (water_intake routine) 0)] else []) /\
    (names_with_trend improving trends = [] -> closing = []) /\
    (names_with_trend improving trends <> [] ->
       exists best,
         closing = [ContinueRoutine (get FEATURE_NAMES (feature_name best))] /\
         In best trends /\ trend best = improving /\
         forall t, In t trends -> trend t = improving ->
                   Qabs (change t) <= Qabs (change best)).
Proof.
  unfold _generate_recommendations. cbv zeta.
  change (Some 2%Z) with (Some (Z.of_nat 2)).
  change (Some 8%Z) with (Some (Z.of_nat 8)).
  rewrite !slice_prefix.
  change (flat_map _ (firstn 2 (filter (has_trend declining) trends)))
    with (remedies_for_declining routine trends).
  change (flat_map _ (firstn 2 flags))
    with (remedies_for_stagnant cur routine flags).
  destruct (rule_engine_parts cur routine trends flags) as [_ [Hd [Hs _]]].
  set (sleep := if Qltb (or_default (sleep_hours routine) 0) 7
                then [AimForSleep (or_default (sleep_hours routine) 0)] else []).
  set (water := if Qltb (or_default (water_intake routine) 0) 6
                then [IncreaseWaterTo (or_default (water_intake routine) 0)] else []).
  set (closing := match filter (has_trend improving) trends with
                  | [] => []
                  | first :: others =>
                      [ContinueRoutine
                         (get FEATURE_NAMES
                              (feature_name (max_by_abs_change first others)))]
                  end).
  assert (Hsl : (length sleep <= 1)%nat)
    by (unfold sleep;
        destruct (Qltb (or_default (sleep_hours routine) 0) 7); simpl; lia).
  assert (Hw : (length water <= 1)%nat)
    by (unfold water;
        destruct (Qltb (or_default (water_intake routine) 0) 6); simpl; lia).
  assert (Hc : (length closing <= 1)%nat)
    by (unfold closing;
        destruct (filter (has_trend improving) trends); simpl; lia).
  assert (Hlen : (length (map Remedy (remedies_for_declining routine trends
                                      ++ remedies_for_stagnant cur routine flags)
                          ++ sleep ++ water ++ closing) <= 7)%nat)
    by (rewrite !length_app, length_map, length_app; lia).
  rewrite firstn_all2 by lia.
  exists sleep, water, closing.
  split; [reflexivity|]. split; [exact Hlen|].
  split; [reflexivity|]. split; [reflexivity|].
  unfold names_with_trend. subst closing.
  destruct (filter (has_trend improving) trends) as [|first others] eqn:E.
  - split; [reflexivity | intros H; now elim H].
  - split; [discriminate|]. intros _.
    destruct (max_by_abs_change_spec first others) as [Hin Hall].
    assert (Hmem : forall t, In t (first :: others) <->
                             In t trends /\ trend t = improving).
    { intros t. rewrite <- E, filter_In. unfold has_trend.
      destruct (trend t); simpl; intuition congruence. }
    exists (max_by_abs_change first others).
    split; [reflexivity|].
    apply Hmem in Hin. destruct Hin as [Hin Htrend].
    split; [exact Hin|]. split; [exact Htrend|].
    intros t Ht Himp. rewrite Forall_forall in Hall.
    apply Hall. apply Hmem. now split.
Qed.

Lemma plain_recommendations_layout_witness :
  exists best,
    In (ContinueRoutine (get FEATURE_NAMES (feature_name best)))
       (_generate_recommendations (single_feature "wrinkles" 35)
          three_improving [] (mkRoutine None None)) /\
    trend best = improving.
Proof.
  destruct (plain_recommendations_layout (single_feature "wrinkles" 35)
              three_improving [] (mkRoutine None None))
    as [sleep [water [closing [Heq [_ [_ [_ [_ Hbest]]]]]]]].
  destruct Hbest as [best [Hclosing [_ [Htrend _]]]]; [discriminate|].
  exists best. split; [|exact Htrend].
  rewrite Heq, Hclosing. apply in_or_app. right.
  apply in_or_app. right. apply in_or_app. right. now left.
Defined.

(** ** The four trends partition the sample *)

Lemma trends_split (trends : list FeatureTrend) :
  Permutation trends
    (filter (has_trend improving) trends
     ++ filter (has_trend declining) trends
     ++ filter (has_trend stable) trends
     ++ filter (has_trend stagnant) trends).
Proof.
  induction trends as [|t trends IH]; [reflexivity|].
  assert (E : forall name,
            filter (has_trend name) (t :: trends)
            = if Trend_eqb (trend t) name
              then t :: filter (has_trend name) trends
              else filter (has_trend name) trends) by reflexivity.
  rewrite !E. destruct (trend t); cbn [Trend_eqb app].
  - now apply perm_skip.
  - now apply Permutation_cons_app.
  - rewrite app_assoc. rewrite app_assoc in IH.
    now apply Permutation_cons_app.
  - rewrite !app_assoc. rewrite !app_assoc in IH.
    now apply Permutation_cons_app.
Qed.

(** X16.  In the normal branch every feature of the current sample has
    exactly one of the four trends: the improving, declining and stable
    buckets together with the features of stagnant trend are a
    rearrangement of the current keys, and for a sample without repeated
    keys no key is in two of them. *)
Theorem trends_partition_the_sample (llm : llm_service) (seed : variation)
    (cur : analysis) (routine : routine_data) (hist : list analysis) :
  (2 <= length hist)%nat ->
  exists s trends,
    generate_smart_summary llm seed cur routine hist = Ok s /\
    _analyze_feature_trends cur hist = Ok trends /\
    Permutation (keys (features cur))
      (improving_features (trend_analysis s)
       ++ declining_features (trend_analysis s)
       ++ stable_features (trend_analysis s)
       ++ names_with_trend stagnant trends) /\
    (well_formed (features cur) ->
     NoDup (improving_features (trend_analysis s)
            ++ declining_features (trend_analysis s)
            ++ stable_features (trend_analysis s)
            ++ names_with_trend stagnant trends)).
Proof.
  intros HN.
  destruct (generate_smart_summary_normal llm seed cur routine hist HN)
    as [flags [Hanalysis [_ Hrun]]].
  eexists. exists (trends_of cur hist).
  split; [exact Hrun|]. split; [exact Hanalysis|].
  cbn [summary_of_parts trend_analysis improving_features declining_features
       stable_features].
  assert (Hperm : Permutation (keys (features cur))
    (names_with_trend improving (trends_of cur hist)
     ++ names_with_trend declining (trends_of cur hist)
     ++ names_with_trend stable (trends_of cur hist)
     ++ names_with_trend stagnant (trends_of cur hist))).
  { unfold names_with_trend. rewrite <- !map_app.
    replace (keys (features cur)) with (map feature_name (trends_of cur hist))
      by (unfold trends_of; rewrite map_map; reflexivity).
    apply Permutation_map.
    pose proof (trends_split (trends_of cur hist)) as H.
    rewrite !app_assoc in H. rewrite !app_assoc. exact H. }
  split; [exact Hperm|].
  intros Hwf. eapply Permutation_NoDup; [exact Hperm | exact Hwf].
Qed.

Lemma trends_partition_the_sample_witness :
  exists s trends,
    generate_smart_summary failing_llm holistic_wellness
      (single_feature "wrinkles" 35) (mkRoutine None None) short_history = Ok s /\
    _analyze_feature_trends (single_feature "wrinkles" 35) short_history
      = Ok trends /\
    names_with_trend stagnant trends = ["wrinkles"].
Proof.
  destruct (trends_partition_the_sample failing_llm holistic_wellness
              (single_feature "wrinkles" 35) (mkRoutine None None) short_history)
    as [s [trends [Hrun [Hanalysis _]]]]; [simpl; lia|].
  exists s, trends. split; [exact Hrun|]. split; [exact Hanalysis|].
  vm_compute in Hanalysis. now injection Hanalysis as <-.
Defined.

(** ** The hours named by the lifestyle tip *)

Lemma int_between (s : Q) (lo hi : Z) :
  (0 <= lo)%Z -> inject_Z lo <= s -> s <= inject_Z hi ->
  (lo <= int s <= hi)%Z.
Proof.
  intros Hlo Hle Hge. destruct s as [n d]. unfold int. cbn [Qnum Qden].
  unfold Qle in Hle, Hge. cbn [Qnum Qden inject_Z] in Hle, Hge.
  assert (Hn : (0 <= n)%Z) by nia.
  rewrite Z.quot_div_nonneg by lia. split.
  - apply Z.div_le_lower_bound; lia.
  - apply Z.div_le_upper_bound; lia.
Qed.

(** X17.  The only lifestyle tip that embeds a number is the "great
    sleep routine" tip; it is given exactly for 7 to 9 hours of sleep
    and the hours it names, the sleep hours cut to an integer, are 7, 8
    or 9. *)
Theorem maintain_tip_names_seven_to_nine (routine : routine_data) (hours : Z) :
  _get_lifestyle_recommendation routine = GreatSleepRoutine hours ->
  (7 <= hours <= 9)%Z /\
  exists s, sleep_hours routine = Some s /\ 7 <= s /\ s <= 9 /\ hours = int s.
Proof.
  unfold _get_lifestyle_recommendation.
  destruct (sleep_hours routine) as [s|]; cbn [or_default];
    [|intros H; discriminate H].
  destruct (Qltb s 6); [discriminate|].
  destruct (Qltb s 7); [discriminate|].
  destruct (Qgeb s 7) eqn:E7; cbn [andb];
    [apply Qgeb_ge in E7|destruct (Qltb _ 6); discriminate].
  destruct (Qle_bool s 9) eqn:E9;
    [apply Qle_bool_iff in E9|destruct (Qltb _ 6); discriminate].
  intros [= <-]. split.
  - apply int_between; [lia | exact E7 | exact E9].
  - exists s. now repeat split.
Qed.

Lemma maintain_tip_names_seven_to_nine_witness :
  (7 <= 8 <= 9)%Z /\
  exists s, sleep_hours (mkRoutine (Some 8.5) None) = Some s /\
            7 <= s /\ s <= 9 /\ 8%Z = int s.
Proof.
  apply (maintain_tip_names_seven_to_nine (mkRoutine (Some 8.5) None) 8).
  reflexivity.
Defined.

(** ** The summary endpoint *)

Lemma last_of_snoc {A : Type} (l : list A) (x : A) : last_of (l ++ [x]) = Some x.
Proof. unfold last_of. now rewrite rev_unit. Qed.

Lemma last_of_some {A : Type} (l : list A) (x : A) :
  last_of l = Some x -> exists before, l = before ++ [x].
Proof.
  destruct l as [|y l] using rev_ind; [discriminate|].
  rewrite last_of_snoc. intros [= ->]. now exists l.
Qed.

Lemma last_of_none {A : Type} (l : list A) : last_of l = None -> l = [].
Proof.
  destruct l as [|y l] using rev_ind; [reflexivity|].
  rewrite last_of_snoc. discriminate.
Qed.

Lemma last_of_filter {A : Type} (p : A -> bool) (l : list A) (x : A) :
  last_of (filter p l) = Some x ->
  p x = true /\
  exists before after,
    l = before ++ x :: after /\ Forall (fun y => p y = false) after.
Proof.
  induction l as [|y l IH] using rev_ind; [discriminate|].
  rewrite filter_app. cbn [filter]. destruct (p y) eqn:Hy.
  - rewrite last_of_snoc. intros [= ->]. split; [exact Hy|].
    exists l, []. now split.
  - rewrite app_nil_r. intros H. destruct (IH H) as [Hx [before [after [-> Hall]]]].
    split; [exact Hx|]. exists before, (after ++ [y]).
    split; [now rewrite <- app_assoc|].
    apply Forall_app. split; [exact Hall | now constructor].
Qed.

(** X18.  The endpoint summarises a stored analysis whenever the history
    is non-empty: the last entry carrying the requested date when one
    exists, the last entry of the history otherwise; the mock analysis
    is used only for an empty history. *)
Theorem today_analysis_is_latest_match (historical_data : list stored_entry)
    (date : string) :
  let chosen := select_today_analysis historical_data date in
  (historical_data = [] -> chosen = mock_entry date) /\
  (historical_data <> [] -> In chosen historical_data) /\
  ((exists entry, In entry historical_data /\ has_date date entry = true) ->
     has_date date chosen = true /\
     exists before after,
       historical_data = before ++ chosen :: after /\
       Forall (fun entry => has_date date entry = false) after) /\
  (historical_data <> [] ->
   (forall entry, In entry historical_data -> has_date date entry = false) ->
     exists before, historical_data = before ++ [chosen]).
Proof.
  cbv zeta. unfold select_today_analysis.
  destruct historical_data as [|e0 rest] eqn:Eh.
  { split; [reflexivity|]. split; [congruence|]. split; [|congruence].
    intros [entry [[] _]]. }
  rewrite <- Eh. assert (Hne : historical_data <> []) by (rewrite Eh; discriminate).
  clear Eh.
  destruct (last_of (filter (has_date date) historical_data)) as [x|] eqn:Hmatch.
  - replace (match historical_data with
             | [] => None
             | _ :: _ => Some x
             end) with (Some x) by (destruct historical_data; congruence).
    replace (match historical_data with
             | [] => Some x
             | _ :: _ => Some x
             end) with (Some x) by (destruct historical_data; reflexivity).
    destruct (last_of_filter _ _ _ Hmatch) as [Hx [before [after [Hsplit Hall]]]].
    split; [congruence|].
    split; [intros _; rewrite Hsplit; apply in_elt|].
    split; [intros _; split; [exact Hx | now exists before, after]|].
    intros _ Hnone. exfalso.
    assert (has_date date x = false)
      by (apply Hnone; rewrite Hsplit; apply in_elt).
    congruence.
  - destruct historical_data as [|e1 rest1] eqn:Eh; [congruence|].
    rewrite <- Eh in *.
    destruct (last_of historical_data) as [y|] eqn:Hlast.
    + destruct (last_of_some _ _ Hlast) as [before Hsplit].
      replace (match historical_data with
               | [] => None
               | _ :: _ => Some y
               end) with (Some y) by (rewrite Eh; reflexivity).
      split; [congruence|].
      split; [intros _; rewrite Hsplit; apply in_or_app; right; now left|].
      split.
      * intros [entry [Hin Hdate]]. exfalso.
        apply last_of_none in Hmatch.
        assert (In entry (filter (has_date date) historical_data))
          by (apply filter_In; now split).
        rewrite Hmatch in H. contradiction.
      * intros _ _. now exists before.
    + apply last_of_none in Hlast. congruence.
Qed.

Lemma today_analysis_is_latest_match_witness :
  In (select_today_analysis
        [mkEntry (Some "2024-01-01") (single_feature "wrinkles" 35) (mkRoutine None None);
         mkEntry (Some "2024-01-02") (single_feature "wrinkles" 40) (mkRoutine None None)]
        "2024-01-01")
     [mkEntry (Some "2024-01-01") (single_feature "wrinkles" 35) (mkRoutine None None);
      mkEntry (Some "2024-01-02") (single_feature "wrinkles" 40) (mkRoutine None None)].
Proof.
  apply (today_analysis_is_latest_match
           [mkEntry (Some "2024-01-01") (single_feature "wrinkles" 35) (mkRoutine None None);
            mkEntry (Some "2024-01-02") (single_feature "wrinkles" 40) (mkRoutine None None)]
           "2024-01-01").
  discriminate.
Defined.

Lemma generate_smart_summary_returns (llm : llm_service) (seed : variation)
    (cur : analysis) (routine : routine_data) (hist : list analysis) :
  exists s,
    generate_smart_summary llm seed cur routine hist = Ok s /\
    data_points_analyzed s = length hist.
Proof.
  destruct (Nat.lt_ge_cases (length hist) 2) as [Hlow|Hnormal].
  - exists (baseline_summary llm seed cur routine hist).
    split; [now apply generate_smart_summary_low_data|].
    apply (baseline_summary_fields llm seed cur routine hist).
  - destruct (generate_smart_summary_normal llm seed cur routine hist Hnormal)
      as [flags [_ [_ Hrun]]].
    eexists. split; [exact Hrun | reflexivity].
Qed.

(** X19.  The endpoint never asks the history service about the guest
    user: a guest always gets the baseline summary of the mock analysis
    with zero data points.  For any other user a failing history service
    gives the basic summary, and a non-empty history gives the composed
    summary of one of its own entries against that whole history. *)
Theorem summary_endpoint_outcomes
    (get_user_history : string -> result (list stored_entry))
    (llm : llm_service) (seed : variation) (now user_id : string)
    (date : option string) :
  let resolved :=
    match date with
    | Some d => if String.eqb d "" then now else d
    | None => now
    end in
  let answer := get_daily_summary get_user_history llm seed now user_id date in
  (user_id = "guest" ->
     exists s,
       answer = Composed s /\
       generate_smart_summary llm seed
         (entry_analysis (mock_entry resolved))
         (entry_routine (mock_entry resolved)) [] = Ok s /\
       data_points_analyzed s = 0%nat /\
       model s = "Hybrid (Local + AI) - TESTING MODE") /\
  (user_id <> "guest" ->
     forall e, get_user_history user_id = Raise e ->
               answer = BasicSummary resolved) /\
  (user_id <> "guest" ->
     forall hist, get_user_history user_id = Ok hist -> hist <> [] ->
       exists entry s,
         In entry hist /\
         generate_smart_summary llm seed (entry_analysis entry)
           (entry_routine entry) (map entry_analysis hist) = Ok s /\
         answer = Composed s /\
         data_points_analyzed s = length hist).
Proof.
  cbv zeta. unfold get_daily_summary.
  set (resolved := match date with
                   | Some d => if String.eqb d "" then now else d
                   | None => now
                   end).
  split; [|split].
  - intros ->. cbn [String.eqb Ascii.eqb Bool.eqb negb andb bind].
    change (select_today_analysis [] resolved) with (mock_entry resolved).
    cbn [map].
    exists (baseline_summary llm seed (entry_analysis (mock_entry resolved))
              (entry_routine (mock_entry resolved)) []).
    rewrite generate_smart_summary_low_data by (simpl; lia).
    cbn [bind catch]. split; [reflexivity|]. split; [reflexivity|].
    split; [apply (baseline_summary_fields llm seed _ _ [])|].
    unfold baseline_summary. cbn [catch].
    now destruct (unpack _) as [[[recs natural] products] tip].
  - intros Hguest e He.
    apply String.eqb_neq in Hguest. rewrite Hguest. cbn [negb].
    now rewrite He.
  - intros Hguest hist Hhist Hne.
    apply String.eqb_neq in Hguest. rewrite Hguest. cbn [negb].
    rewrite Hhist. cbn [bind].
    destruct (generate_smart_summary_returns llm seed
                (entry_analysis (select_today_analysis hist resolved))
                (entry_routine (select_today_analysis hist resolved))
                (map entry_analysis hist)) as [s [Hrun Hpoints]].
    exists (select_today_analysis hist resolved), s.
    split.
    { unfold select_today_analysis.
      destruct hist as [|e0 rest] eqn:Eh; [congruence|]. rewrite <- Eh.
      destruct (last_of (filter (has_date resolved) hist)) as [x|] eqn:Hm.
      - apply last_of_filter in Hm. destruct Hm as [_ [b [a [-> _]]]].
        destruct (b ++ x :: a) eqn:E; [now destruct b|].
        rewrite <- E. apply in_elt.
      - rewrite Eh. rewrite <- Eh.
        destruct (last_of hist) as [y|] eqn:Hl.
        + apply last_of_some in Hl. destruct Hl as [b ->].
          apply in_or_app. right. now left.
        + apply last_of_none in Hl. congruence. }
    split; [exact Hrun|]. rewrite Hrun. cbn [bind catch].
    split; [reflexivity|]. now rewrite Hpoints, length_map.
Qed.

Lemma summary_endpoint_outcomes_witness :
  exists s,
    get_daily_summary (fun _ => Raise Exception) failing_llm holistic_wellness
      "2024-01-01" "guest" None = Composed s /\
    data_points_analyzed s = 0%nat.
Proof.
  destruct (proj1 (summary_endpoint_outcomes (fun _ => Raise Exception)
                     failing_llm holistic_wellness "2024-01-01" "guest" None)
                  eq_refl)
    as [s [Hanswer [_ [Hpoints _]]]].
  exists s. now split.
Defined.

(** ** The baseline branch on the rule engine *)

(** X20.  In the low-data branch a failed collaborator leaves only the
    routine advice: the recommendations are the sleep text and the water
    text when they apply, so they are empty exactly when the sleep hours
    are absent or at least 7 and the water intake is absent or at least
    6. *)
Theorem baseline_fallback_is_routine_advice (llm : llm_service) (seed : variation)
    (cur : analysis) (routine : routine_data) (hist : list analysis) :
  (length hist < 2)%nat ->
  generative_failure (llm (mkRequest cur routine (build_prompt seed cur))) ->
  exists s,
    generate_smart_summary llm seed cur routine hist = Ok s /\
    recommendations s
      = map deterministic (sleep_advice routine ++ water_advice routine) /\
    (recommendations s = [] <->
     (forall h, sleep_hours routine = Some h -> 7 <= h) /\
     (forall w, water_intake routine = Some w -> 6 <= w)).
Proof.
  intros Hlow Hfail.
  destruct (generative_path_failure llm seed cur routine Hfail) as [e He].
  exists (baseline_summary llm seed cur routine hist).
  split; [now apply generate_smart_summary_low_data|].
  destruct (baseline_summary_fields llm seed cur routine hist) as [_ [Hrecs _]].
  unfold _generate_ai_recommendations in Hrecs. rewrite He in Hrecs.
  cbn [catch unpack fst] in Hrecs.
  rewrite firstn_all2 in Hrecs
    by (pose proof (rule_engine_length cur routine [] []); lia).
  rewrite (proj1 (rule_engine_parts cur routine [] [])) in Hrecs.
  change (remedies_for_declining routine []) with (@nil rule_text) in Hrecs.
  change (remedies_for_stagnant cur routine []) with (@nil rule_text) in Hrecs.
  cbn [app] in Hrecs. split; [exact Hrecs|]. rewrite Hrecs.
  unfold sleep_advice, water_advice.
  destruct (sleep_hours routine) as [h|], (water_intake routine) as [w|];
    repeat match goal with
           | |- context [Qltb ?a ?b] =>
               let E := fresh "E" in
               destruct (Qltb a b) eqn:E;
               [apply Qltb_lt in E | apply Qltb_ge in E]
           end;
    cbn [app map]; split;
    try discriminate; try reflexivity;
    try (intros _; split; intros ? [= <-]; assumption);
    try (intros _; split; intros ? [=]; fail);
    try (intros [Hs Hw]; exfalso;
         first [ specialize (Hs _ eq_refl); lra | specialize (Hw _ eq_refl); lra ]).
Qed.

Lemma baseline_fallback_is_routine_advice_witness :
  exists s,
    generate_smart_summary failing_llm holistic_wellness
      (single_feature "wrinkles" 35) (mkRoutine (Some 8) None) [] = Ok s /\
    recommendations s = [].
Proof.
  destruct (baseline_fallback_is_routine_advice failing_llm holistic_wellness
              (single_feature "wrinkles" 35) (mkRoutine (Some 8) None) [])
    as [s [Hrun [Hrecs _]]].
  - simpl. lia.
  - exact I.
  - exists s. split; [exact Hrun|]. rewrite Hrecs. reflexivity.
Defined.
